(** * COVID-19 dashboard (app.py): a shallow embedding and its properties

    The script has three parts, run in this order:
    - the fetcher [download_if_needed], which talks to the file system and
      to the network;
    - the loader, three module-level statements that build the global
      data frame [df];
    - the Dash callback [update_chart], which builds a figure from [df] and
      the drop-down's value.

    File-system and network effects are modelled by explicit state passing
    over a [World]; pandas objects live in a [Heap] of frames addressed by
    object identity, so that in-place column assignment and copying are
    told apart. *)

From stdpp Require Import base strings gmap list pretty.
From Stdlib Require Import ZArith Sorted.

Local Open Scope Z_scope.

(** ** Python results: a value or a raised exception *)

Inductive Exn : Type :=
  | ConnectionError
  | HTTPError
  | FileNotFoundError
  | ValueError
  | KeyError
  | NameError.

Inductive Result (A : Type) : Type :=
  | Ok (a : A)
  | Raise (e : Exn).
Arguments Ok {A} a.
Arguments Raise {A} e.

(** The newline character of Python's ["\n"]. *)
Definition nl : string := String (Ascii.ascii_of_nat 10) EmptyString.

(** ** Python's [needle in haystack] on strings *)

Fixpoint contains (needle hay : string) : bool :=
  String.prefix needle hay ||
  match hay with
  | EmptyString => false
  | String _ rest => contains needle rest
  end.

(** ** CONFIG *)

Definition DATA_FOLDER : string := "covid_data".
Definition LOG_FILE : string := "download_log.txt".

(** ** The fetcher *)

Module Fetcher.

(** What the process can observe and change outside itself: regular files
    by path, the number of GET requests sent so far, and standard output.
    The cache directory is created by [os.makedirs] before anything else
    runs, so opening a file below it for writing does not fail. *)
Record World : Type := mkWorld {
  fs : gmap string string;
  requests : nat;
  stdout : list string
}.

(** What [requests.get(DATA_URL)] does when it is called: it raises, or it
    returns a response with a status code and a body. *)
Inductive Reply : Type :=
  | NoReply
  | Response (status_code : Z) (content : string).

(** [filename = f"owid-covid-data_{today}.csv"] *)
Definition filename (today : string) : string :=
  "owid-covid-data_" +:+ today +:+ ".csv".

(** [filepath = os.path.join(DATA_FOLDER, filename)] *)
Definition filepath (today : string) : string :=
  DATA_FOLDER +:+ "/" +:+ filename today.

(** [os.path.exists(path)] *)
Definition exists_ (path : string) (w : World) : bool :=
  bool_decide (is_Some (fs w !! path)).

(** [print(line)] *)
Definition print (line : string) (w : World) : World :=
  {| fs := fs w; requests := requests w; stdout := stdout w ++ [line] |}.

(** [with open(path, "wb") as f: f.write(data)]: creates or truncates. *)
Definition write_file (path data : string) (w : World) : World :=
  {| fs := <[path := data]> (fs w); requests := requests w; stdout := stdout w |}.

(** [with open(path, "a") as f: f.write(data)]: creates or appends. *)
Definition append_file (path data : string) (w : World) : World :=
  {| fs := <[path := default EmptyString (fs w !! path) +:+ data]> (fs w);
     requests := requests w; stdout := stdout w |}.

(** [r.raise_for_status()] raises for the 4xx and 5xx codes. *)
Definition is_error_status (status_code : Z) : bool :=
  (400 <=? status_code) && (status_code <? 600).

(** Lines 26-29: the ledger exists and today's label occurs in it. *)
Definition logged_today (today : string) (w : World) : bool :=
  match fs w !! LOG_FILE with
  | Some log => contains today log
  | None => false
  end.

(** [download_if_needed()], lines 25-36.  [today] is the module-level
    label computed once at import; [reply] is what the network answers if
    it is asked. *)
Definition download_if_needed (today : string) (reply : Reply) (w : World)
  : World * Result unit :=
  if logged_today today w then (w, Ok tt)
  else
    let w1 := print "[INFO] Downloading COVID dataset..." w in
    let w2 := {| fs := fs w1; requests := S (requests w1); stdout := stdout w1 |} in
    match reply with
    | NoReply => (w2, Raise ConnectionError)
    | Response status_code content =>
        if is_error_status status_code then (w2, Raise HTTPError)
        else
          let w3 := write_file (filepath today) content w2 in
          let w4 := append_file LOG_FILE (today +:+ " - Downloaded" +:+ nl) w3 in
          (w4, Ok tt)
    end.

(** [pd.read_csv(filepath)] as far as the file system is concerned: the
    bytes of the file, or [FileNotFoundError]. *)
Definition open_for_read (path : string) (w : World) : Result string :=
  match fs w !! path with
  | Some data => Ok data
  | None => Raise FileNotFoundError
  end.

End Fetcher.

(** ** Dates

    A parsed [date] cell is a pandas Timestamp at midnight; it is kept here
    as its calendar fields.  Timestamps are ordered chronologically, which
    on calendar fields is the lexicographic order. *)

Record Date : Type := mkDate { year : Z; month : Z; day : Z }.

Definition date_leb (a b : Date) : bool :=
  (year a <? year b) ||
  ((year a =? year b) &&
   ((month a <? month b) || ((month a =? month b) && (day a <=? day b)))).

Definition date_le (a b : Date) : Prop :=
  year a < year b ∨
  (year a = year b ∧ (month a < month b ∨ (month a = month b ∧ day a ≤ day b))).

(** [Series.min()] and [Series.max()] of a datetime column; [None] is the
    [NaT] that pandas returns for a column without values. *)
Definition date_min2 (a b : Date) : Date := if date_leb a b then a else b.
Definition date_max2 (a b : Date) : Date := if date_leb a b then b else a.

Definition series_min (s : list Date) : option Date :=
  match s with
  | [] => None
  | d :: s' => Some (fold_left date_min2 s' d)
  end.

Definition series_max (s : list Date) : option Date :=
  match s with
  | [] => None
  | d :: s' => Some (fold_left date_max2 s' d)
  end.

(** [%b]: the abbreviated month name of the C locale.  A Timestamp's
    month is one of 1 to 12. *)
Definition month_abbr (m : Z) : string :=
  match m with
  | 1 => "Jan" | 2 => "Feb" | 3 => "Mar" | 4 => "Apr"
  | 5 => "May" | 6 => "Jun" | 7 => "Jul" | 8 => "Aug"
  | 9 => "Sep" | 10 => "Oct" | 11 => "Nov" | 12 => "Dec"
  | _ => EmptyString
  end.

(** [%d]: the day of the month, zero-padded to two digits. *)
Definition day_2d (d : Z) : string :=
  if d <? 10 then "0" +:+ pretty d else pretty d.

(** [ts.strftime("%b %d, %Y")]; on [NaT] pandas raises [ValueError]. *)
Definition strftime (ts : option Date) : Result string :=
  match ts with
  | None => Raise ValueError
  | Some d =>
      Ok (month_abbr (month d) +:+ " " +:+ day_2d (day d) +:+ ", " +:+ pretty (year d))
  end.

(** ** Data frames

    Only the columns the script touches are kept: [location], [date], the
    configured metric [total_cases], and the [delta] column that the
    callback adds to its per-country frame.  A numeric cell is [None] when
    pandas holds [NaN] there.  [label] is the row's index label. *)

Definition METRIC : string := "total_cases".

Record Line : Type := mkLine {
  label : nat;
  location : string;
  date : Date;
  total_cases : option Z;
  delta : option Z
}.

Record Frame : Type := mkFrame {
  columns : list string;
  lines : list Line
}.

Definition index (f : Frame) : list nat := map label (lines f).

(** [s.notna()] on one cell. *)
Definition notna (v : option Z) : bool :=
  match v with Some _ => true | None => false end.

(** [frame[mask]] on the rows: keeps the rows whose mask entry is [True];
    pandas raises when the mask has another length than the frame. *)
Fixpoint select_rows (mask : list bool) (ls : list Line) : Result (list Line) :=
  match mask, ls with
  | [], [] => Ok []
  | b :: mask', l :: ls' =>
      match select_rows mask' ls' with
      | Ok kept => Ok (if b then l :: kept else kept)
      | Raise e => Raise e
      end
  | _, _ => Raise ValueError
  end.

(** [sort_values("date")]: ascending.  pandas does not fix the order of
    rows with equal dates; here they keep their relative order.  A country
    has one row per date in the file this script downloads. *)
Fixpoint insert_by_date (l : Line) (sorted : list Line) : list Line :=
  match sorted with
  | [] => [l]
  | l' :: rest =>
      if date_leb (date l) (date l') then l :: sorted
      else l' :: insert_by_date l rest
  end.

Fixpoint sort_by_date (ls : list Line) : list Line :=
  match ls with
  | [] => []
  | l :: rest => insert_by_date l (sort_by_date rest)
  end.

(** [Series.diff()]: each value minus the one before it; [NaN] for the
    first row and wherever an operand is [NaN]. *)
Definition sub_cells (cur prev : option Z) : option Z :=
  match cur, prev with
  | Some c, Some p => Some (c - p)
  | _, _ => None
  end.

Fixpoint diff_after (prev : option Z) (s : list (option Z)) : list (option Z) :=
  match s with
  | [] => []
  | v :: s' => sub_cells v prev :: diff_after v s'
  end.

Definition diff (s : list (option Z)) : list (option Z) := diff_after None s.

(** [series > 0] on one cell: [NaN > 0] is [False]. *)
Definition gt0 (v : option Z) : bool :=
  match v with Some d => 0 <? d | None => false end.

(** Writing a column of values into the rows, position by position (the
    values come from the same frame, so index alignment is positional);
    a row without a value gets [NaN]. *)
Fixpoint assign_delta (vals : list (option Z)) (ls : list Line) : list Line :=
  match ls with
  | [] => []
  | l :: ls' =>
      mkLine (label l) (location l) (date l) (total_cases l) (hd None vals)
        :: assign_delta (tl vals) ls'
  end.

Definition add_column (c : string) (cols : list string) : list string :=
  if bool_decide (c ∈ cols) then cols else cols ++ [c].

(** [frame.last_valid_index()]: the label of the last row that holds a
    non-NA cell, [None] when there is no such row.  The [location] and
    [date] cells of a row are never NA, so every row qualifies. *)
Definition last_valid_index_of (f : Frame) : option nat := last (index f).

(** [frame.loc[lbl, col]] looks the row up by its label. *)
Definition loc_line (lbl : nat) (f : Frame) : Result Line :=
  match List.find (fun l => Nat.eqb (label l) lbl) (lines f) with
  | Some l => Ok l
  | None => Raise KeyError
  end.

(** [frame["delta"]] raises [KeyError] when the column was never set. *)
Definition getitem_delta (f : Frame) : Result (list (option Z)) :=
  if bool_decide ("delta" ∈ columns f) then Ok (map delta (lines f))
  else Raise KeyError.

(** ** The object heap

    A pandas frame is a mutable object.  Names such as [df] and
    [country_df] hold references; boolean indexing and [sort_values] return
    new objects, column assignment changes the object it is applied to. *)

Record Heap : Type := mkHeap {
  objs : gmap nat Frame;
  next_id : nat
}.

Definition empty_heap : Heap := {| objs := ∅; next_id := 0 |}.

Definition M (A : Type) : Type := Heap → Heap * Result A.

Definition ret {A} (a : A) : M A := fun h => (h, Ok a).

Definition bind {A B} (m : M A) (k : A → M B) : M B :=
  fun h =>
    match m h with
    | (h', Ok a) => k a h'
    | (h', Raise e) => (h', Raise e)
    end.

Notation "'let*' x := m 'in' k" := (bind m (fun x => k))
  (at level 10, x name, m at level 100, k at level 200).

(** Lifting a pure result: an exception propagates. *)
Definition lift {A} (r : Result A) : M A := fun h => (h, r).

(** A new object. *)
Definition new_frame (f : Frame) : M nat :=
  fun h => ({| objs := <[next_id h := f]> (objs h); next_id := S (next_id h) |},
            Ok (next_id h)).

(** Reading the object behind a reference. *)
Definition deref (r : nat) : M Frame :=
  fun h =>
    match objs h !! r with
    | Some f => (h, Ok f)
    | None => (h, Raise NameError)
    end.

(** [frame[mask]]: a new frame with the selected rows. *)
Definition getitem_mask (r : nat) (mask : list bool) : M nat :=
  let* f := deref r in
  let* kept := lift (select_rows mask (lines f)) in
  new_frame {| columns := columns f; lines := kept |}.

(** [frame.sort_values("date")]: a new, sorted frame. *)
Definition sort_values_date (r : nat) : M nat :=
  let* f := deref r in
  new_frame {| columns := columns f; lines := sort_by_date (lines f) |}.

(** [frame["delta"] = vals]: changes the frame behind [r] in place. *)
Definition setitem_delta (r : nat) (vals : list (option Z)) : M unit :=
  fun h =>
    match objs h !! r with
    | Some f =>
        ({| objs := <[r := {| columns := add_column "delta" (columns f);
                              lines := assign_delta vals (lines f) |}]> (objs h);
            next_id := next_id h |}, Ok tt)
    | None => (h, Raise NameError)
    end.

(** ** Figures *)

Inductive Mode : Type := mode_lines | mode_markers.

Record Scatter : Type := mkScatter {
  x : list Date;
  y : list (option Z);
  mode : Mode;
  name : option string;
  line_width : option Z;
  marker : option (string * Z);
  showlegend : option bool
}.

Record Annotation : Type := mkAnnotation {
  ann_x : Date;
  ann_y : option Z;
  text : string;
  showarrow : bool;
  arrowhead : Z;
  ax : Z;
  ay : Z;
  font_color : string;
  bgcolor : string;
  bordercolor : string;
  borderwidth : Z
}.

Record Layout : Type := mkLayout {
  title : string;
  xaxis_title : string;
  yaxis_title : string;
  plot_bgcolor : string;
  paper_bgcolor : string;
  layout_font_color : string;
  xaxis_gridcolor : string;
  yaxis_gridcolor : string;
  margin : Z * Z * Z * Z
}.

(** A figure: its traces, its annotations, and its layout, which is [None]
    as long as nothing was set ([go.Figure()]'s default). *)
Record Figure : Type := mkFigure {
  data : list Scatter;
  annotations : list Annotation;
  layout : option Layout
}.

(** [go.Figure()] *)
Definition new_figure : Figure :=
  {| data := []; annotations := []; layout := None |}.

Definition add_trace (fig : Figure) (t : Scatter) : Figure :=
  {| data := data fig ++ [t]; annotations := annotations fig; layout := layout fig |}.

Definition add_annotation (fig : Figure) (a : Annotation) : Figure :=
  {| data := data fig; annotations := annotations fig ++ [a]; layout := layout fig |}.

Definition update_layout (fig : Figure) (l : Layout) : Figure :=
  {| data := data fig; annotations := annotations fig; layout := Some l |}.

(** Lines 89-95. *)
Definition line_trace (f : Frame) (country : string) : Scatter :=
  {| x := map date (lines f); y := map total_cases (lines f);
     mode := mode_lines; name := Some country; line_width := Some 2;
     marker := None; showlegend := None |}.

(** Lines 104-110. *)
Definition marker_trace (last_date : Date) (last_value : option Z) : Scatter :=
  {| x := [last_date]; y := [last_value];
     mode := mode_markers; name := None; line_width := None;
     marker := Some ("red", 10); showlegend := Some false |}.

(** Lines 113-125. *)
Definition stopped_annotation (last_date : Date) (last_value : option Z)
    (country : string) : Annotation :=
  {| ann_x := last_date; ann_y := last_value;
     text := "Reporting stopped for " +:+ country;
     showarrow := true; arrowhead := 2; ax := 0; ay := -40;
     font_color := "red"; bgcolor := "#222"; bordercolor := "red";
     borderwidth := 1 |}.

(** Lines 127-137. *)
Definition chart_layout (global_min_date global_max_date : string) : Layout :=
  {| title := "Total COVID-19 Cases (" +:+ global_min_date +:+ " – "
              +:+ global_max_date +:+ ")";
     xaxis_title := "Date"; yaxis_title := "Total Cases";
     plot_bgcolor := "#0d0d0d"; paper_bgcolor := "#0d0d0d";
     layout_font_color := "#ffffff";
     xaxis_gridcolor := "#333333"; yaxis_gridcolor := "#333333";
     margin := (60, 30, 60, 50) |}.

(** ** The callback *)

(** Python's truth value of [last_valid_index()]'s result: [None] and the
    integer [0] are false, every other label is true. *)
Definition truthy_index (idx : option nat) : bool :=
  match idx with
  | None => false
  | Some O => false
  | Some (S _) => true
  end.

(** Python's truth value of the drop-down's value: [None] and the empty
    list are false. *)
Definition truthy_selection (selected_countries : option (list string)) : bool :=
  match selected_countries with
  | None => false
  | Some [] => false
  | Some (_ :: _) => true
  end.

(** The body of the loop, lines 85-125, for one [country]. *)
Definition chart_country (df : nat) (fig : Figure) (country : string) : M Figure :=
  let* d := deref df in
  let* matching :=
    getitem_mask df (map (fun l => String.eqb (location l) country) (lines d)) in
  let* country_df := sort_values_date matching in
  let* c := deref country_df in
  let* _ := setitem_delta country_df (diff (map total_cases (lines c))) in
  let* c := deref country_df in
  let fig := add_trace fig (line_trace c country) in
  let* deltas := lift (getitem_delta c) in
  let* increases := getitem_mask country_df (map gt0 deltas) in
  let* inc := deref increases in
  let last_increase_idx := last_valid_index_of inc in
  if truthy_index last_increase_idx then
    let* c := deref country_df in
    let* at_idx := lift (loc_line (default O last_increase_idx) c) in
    let last_date := date at_idx in
    let last_value := total_cases at_idx in
    let fig := add_trace fig (marker_trace last_date last_value) in
    let fig := add_annotation fig (stopped_annotation last_date last_value country) in
    ret fig
  else ret fig.

(** [for country in selected_countries: ...] *)
Fixpoint for_countries (df : nat) (fig : Figure) (cs : list string) : M Figure :=
  match cs with
  | [] => ret fig
  | country :: rest =>
      let* fig := chart_country df fig country in
      for_countries df fig rest
  end.

(** [update_chart(selected_countries)], lines 76-139.  [df] is the
    reference held by the global of that name. *)
Definition update_chart (df : nat) (selected_countries : option (list string))
  : M Figure :=
  if negb (truthy_selection selected_countries) then ret new_figure
  else
    let fig := new_figure in
    let* d := deref df in
    let* global_min_date := lift (strftime (series_min (map date (lines d)))) in
    let* d := deref df in
    let* global_max_date := lift (strftime (series_max (map date (lines d)))) in
    let* fig := for_countries df fig (default [] selected_countries) in
    ret (update_layout fig (chart_layout global_min_date global_max_date)).

(** ** The loader, lines 41-43 *)

Module Loader.

(** A parsed row of the CSV file, as [pd.read_csv] and [pd.to_datetime]
    deliver it: an empty metric field reads as [NaN]. *)
Record CsvRow : Type := mkCsvRow {
  csv_location : string;
  csv_date : Date;
  csv_total_cases : option Z
}.

(** [pd.read_csv] labels the rows [0, 1, 2, ...]. *)
Definition read_csv (rows : list CsvRow) : Frame :=
  {| columns := ["location"; "date"; METRIC];
     lines := imap (fun i r => mkLine i (csv_location r) (csv_date r)
                                 (csv_total_cases r) None) rows |}.

(** [df = pd.read_csv(filepath)], then [df = df[df[METRIC].notna()]]; the
    result is the reference bound to the global [df].  Line 42 replaces the
    [date] column of the first frame by its parsed values, which the rows
    here hold from the start. *)
Definition load (rows : list CsvRow) : M nat :=
  let* df := new_frame (read_csv rows) in
  let* d := deref df in
  let* df := getitem_mask df (map (fun l => notna (total_cases l)) (lines d)) in
  ret df.

End Loader.

(** ** The process after start-up: one callback per selection event.  Dash
    catches an exception raised by a callback; the heap lives on. *)
Definition serve (df : nat) (events : list (option (list string))) (h : Heap) : Heap :=
  fold_left (fun h sel => fst (update_chart df sel h)) events h.

(** * What the callback computes

    The callback's result depends on the heap only through the frame
    behind [df].  The functions below give that result as a function of
    the frame; [update_chart_run] relates them to [update_chart]. *)

(** The per-country working frame after line 86: the country's rows by
    date, with the [delta] column filled in. *)
Definition country_frame (d : Frame) (country : string) : Frame :=
  let sorted :=
    sort_by_date (List.filter (fun l => String.eqb (location l) country) (lines d)) in
  {| columns := add_column "delta" (columns d);
     lines := assign_delta (diff (map total_cases sorted)) sorted |}.

(** The rows of a working frame with a positive difference, in order. *)
Definition increases_of (c : Frame) : list Line :=
  List.filter (fun l => gt0 (delta l)) (lines c).

Definition country_step (d : Frame) (fig : Figure) (country : string)
  : Result Figure :=
  let c := country_frame d country in
  let fig := add_trace fig (line_trace c country) in
  let idx := last (map label (increases_of c)) in
  if truthy_index idx then
    match loc_line (default O idx) c with
    | Ok at_idx =>
        Ok (add_annotation
              (add_trace fig (marker_trace (date at_idx) (total_cases at_idx)))
              (stopped_annotation (date at_idx) (total_cases at_idx) country))
    | Raise e => Raise e
    end
  else Ok fig.

Fixpoint countries_steps (d : Frame) (fig : Figure) (cs : list string)
  : Result Figure :=
  match cs with
  | [] => Ok fig
  | country :: rest =>
      match country_step d fig country with
      | Ok fig => countries_steps d fig rest
      | Raise e => Raise e
      end
  end.

Definition render (d : Frame) (selected_countries : option (list string))
  : Result Figure :=
  if negb (truthy_selection selected_countries) then Ok new_figure
  else
    match strftime (series_min (map date (lines d))) with
    | Raise e => Raise e
    | Ok global_min_date =>
        match strftime (series_max (map date (lines d))) with
        | Raise e => Raise e
        | Ok global_max_date =>
            match countries_steps d new_figure (default [] selected_countries) with
            | Raise e => Raise e
            | Ok fig =>
                Ok (update_layout fig (chart_layout global_min_date global_max_date))
            end
        end
    end.

(** ** Auxiliary definitions for the statements below *)

(** The heap after allocating, and after overwriting, an object. *)
Definition alloc (f : Frame) (h : Heap) : Heap :=
  {| objs := <[next_id h := f]> (objs h); next_id := S (next_id h) |}.

Definition store (r : nat) (f : Frame) (h : Heap) : Heap :=
  {| objs := <[r := f]> (objs h); next_id := next_id h |}.

(** A date is the earliest (latest) of a column when it occurs in it and
    no entry is before (after) it. *)
Definition earliest_of (s : list Date) (m : Date) : Prop :=
  m ∈ s ∧ ∀ e, e ∈ s → date_le m e.

Definition latest_of (s : list Date) (m : Date) : Prop :=
  m ∈ s ∧ ∀ e, e ∈ s → date_le e m.

(** The marker and the annotation of a country, if line 99 lets them
    through. *)
Definition country_marks (d : Frame) (country : string)
  : list Scatter * list Annotation :=
  let c := country_frame d country in
  let idx := last (map label (increases_of c)) in
  if truthy_index idx then
    match loc_line (default O idx) c with
    | Ok at_idx =>
        ([marker_trace (date at_idx) (total_cases at_idx)],
         [stopped_annotation (date at_idx) (total_cases at_idx) country])
    | Raise _ => ([], [])
    end
  else ([], []).

Definition country_traces (d : Frame) (country : string) : list Scatter :=
  line_trace (country_frame d country) country :: (country_marks d country).1.

Definition country_annotations (d : Frame) (country : string) : list Annotation :=
  (country_marks d country).2.

Definition is_line_trace (t : Scatter) : bool :=
  match mode t with mode_lines => true | mode_markers => false end.

(** The line trace of a country without rows: lines 89-95 on an empty
    frame. *)
Definition empty_line_trace (country : string) : Scatter :=
  {| x := []; y := []; mode := mode_lines; name := Some country;
     line_width := Some 2; marker := None; showlegend := None |}.

(** The frame the loader binds to [df]: the rows of the file that have a
    value in the metric column, under their labels from the file. *)
Definition loaded (rows : list Loader.CsvRow) : Frame :=
  {| columns := columns (Loader.read_csv rows);
     lines := List.filter (fun l => notna (total_cases l))
                (lines (Loader.read_csv rows)) |}.

(** The script from line 41 on: the loader, then one call of the
    callback. *)
Definition dashboard (rows : list Loader.CsvRow)
    (selected_countries : option (list string)) : Result Figure :=
  match Loader.load rows empty_heap with
  | (h, Ok df) => (update_chart df selected_countries h).2
  | (_, Raise e) => Raise e
  end.

(** ** Sample inputs *)

Definition january (n : Z) : Date := mkDate 2020 1 n.
Definition february (n : Z) : Date := mkDate 2020 2 n.
Definition march (n : Z) : Date := mkDate 2020 3 n.

(** One country, values 10, 10, 15, 15, 12 on five consecutive days, in
    the order of the dates. *)
Definition plateau_rows : list Loader.CsvRow :=
  [ Loader.mkCsvRow "C" (march 1) (Some 10);
    Loader.mkCsvRow "C" (march 2) (Some 10);
    Loader.mkCsvRow "C" (march 3) (Some 15);
    Loader.mkCsvRow "C" (march 4) (Some 15);
    Loader.mkCsvRow "C" (march 5) (Some 12) ].

(** A file that lists a country's newest row first. *)
Definition newest_first_rows : list Loader.CsvRow :=
  [ Loader.mkCsvRow "C" (march 2) (Some 15);
    Loader.mkCsvRow "C" (march 1) (Some 10) ].

(** Two countries: A from January to March, B for three days in February,
    one of them without a value. *)
Definition two_countries_rows : list Loader.CsvRow :=
  [ Loader.mkCsvRow "A" (january 1) (Some 1);
    Loader.mkCsvRow "A" (january 2) (Some 3);
    Loader.mkCsvRow "B" (february 10) (Some 5);
    Loader.mkCsvRow "B" (february 11) None;
    Loader.mkCsvRow "B" (february 12) (Some 7);
    Loader.mkCsvRow "A" (march 5) (Some 3) ].

Definition two_countries_heap : Heap :=
  (Loader.load two_countries_rows empty_heap).1.

Definition today_label : string := "2024-01-05".

(** A ledger with today's entry, and no cache file. *)
Definition logged_world : Fetcher.World :=
  {| Fetcher.fs := {[ LOG_FILE := "2024-01-05 - Downloaded" +:+ nl ]};
     Fetcher.requests := 0;
     Fetcher.stdout := [] |}.

Definition csv_body : string := "location,date,total_cases".

(** ** The country list and the drop-down, lines 44 and 59-65 *)

(** [Series.unique()]: the distinct values, in the order of their first
    appearance. *)
Fixpoint unique (s : list string) : list string :=
  match s with
  | [] => []
  | v :: s' => v :: List.filter (fun u => negb (String.eqb u v)) (unique s')
  end.

(** Python's [sorted] on strings: ascending in the order of [<=] on [str],
    which compares code point by code point and, on UTF-8 bytes, byte by
    byte. *)
Fixpoint insert_sorted (v : string) (sorted_ : list string) : list string :=
  match sorted_ with
  | [] => [v]
  | u :: rest =>
      if String.leb v u then v :: sorted_ else u :: insert_sorted v rest
  end.

Fixpoint sorted (s : list string) : list string :=
  match s with
  | [] => []
  | v :: s' => insert_sorted v (sorted s')
  end.

(** [sorted(frame["location"].unique())] on a frame. *)
Definition country_names (d : Frame) : list string :=
  sorted (unique (map location (lines d))).

(** [countries = sorted(df["location"].unique())], line 44. *)
Definition countries (df : nat) : M (list string) :=
  let* d := deref df in
  ret (country_names d).

Definition DEFAULT_COUNTRIES : list string := ["United States"].

(** One entry of the drop-down: [{"label": c, "value": c}]. *)
Record DropdownOption : Type := mkOption {
  option_label : string;
  option_value : string
}.

(** [dcc.Dropdown(id="country-selector", options=..., value=..., multi=True)],
    lines 59-65, without its style. *)
Record Dropdown : Type := mkDropdown {
  dropdown_id : string;
  options : list DropdownOption;
  value : list string;
  multi : bool
}.

Definition country_selector (countries : list string) : Dropdown :=
  {| dropdown_id := "country-selector";
     options := map (fun c => {| option_label := c; option_value := c |}) countries;
     value := DEFAULT_COUNTRIES;
     multi := true |}.

Definition is_marker_trace (t : Scatter) : bool :=
  match mode t with mode_markers => true | mode_lines => false end.

(** The points of a trace: its [x] and [y] entries, pair by pair. *)
Definition points (t : Scatter) : list (Date * option Z) := combine (x t) (y t).

(** ** The script at import, lines 38-44 *)

Section Startup.

(** What [pd.read_csv] followed by [pd.to_datetime] makes of the bytes of a
    file: the typed rows, or an exception. *)
Variable parse_csv : string → Result (list Loader.CsvRow).

(** What the module holds once it is imported: the heap, the reference
    bound to [df], and [countries]. *)
Definition startup (today : string) (reply : Fetcher.Reply) (w : Fetcher.World)
  : Fetcher.World * Result (Heap * nat * list string) :=
  match Fetcher.download_if_needed today reply w with
  | (w1, Raise e) => (w1, Raise e)
  | (w1, Ok _) =>
      match Fetcher.open_for_read (Fetcher.filepath today) w1 with
      | Raise e => (w1, Raise e)
      | Ok text =>
          match parse_csv text with
          | Raise e => (w1, Raise e)
          | Ok rows =>
              match (let* df := Loader.load rows in
                     let* cs := countries df in
                     ret (df, cs)) empty_heap with
              | (h, Ok (df, cs)) => (w1, Ok (h, df, cs))
              | (_, Raise e) => (w1, Raise e)
              end
          end
      end
  end.

End Startup.

(** The text of a file with the rows of [two_countries_rows]. *)
Definition two_countries_csv : string :=
  "location,date,total_cases" +:+ nl +:+
  "A,2020-01-01,1" +:+ nl +:+
  "A,2020-01-02,3" +:+ nl +:+
  "B,2020-02-10,5" +:+ nl +:+
  "B,2020-02-11," +:+ nl +:+
  "B,2020-02-12,7" +:+ nl +:+
  "A,2020-03-05,3" +:+ nl.

(** A parser that knows the two sample files: the header alone, and
    [two_countries_csv]. *)
Definition sample_parse (text : string) : Result (list Loader.CsvRow) :=
  if String.eqb text csv_body then Ok []
  else if String.eqb text two_countries_csv then Ok two_countries_rows
  else Raise ValueError.

(** A world with yesterday's cache file and yesterday's ledger entry. *)
Definition yesterday_world : Fetcher.World :=
  {| Fetcher.fs :=
       {[ Fetcher.filepath "2024-01-04" := two_countries_csv;
          LOG_FILE := "2024-01-04 - Downloaded" +:+ nl ]};
     Fetcher.requests := 0;
     Fetcher.stdout := [] |}.

(** A file none of whose rows has a value, and the heap after loading
    it. *)
Definition no_value_rows : list Loader.CsvRow :=
  [ Loader.mkCsvRow "B" (february 11) None ].

Definition no_value_heap : Heap := (Loader.load no_value_rows empty_heap).1.

(** A world with a cache file for today and no ledger. *)
Definition stale_world : Fetcher.World :=
  {| Fetcher.fs := {[ Fetcher.filepath today_label := two_countries_csv ]};
     Fetcher.requests := 0;
     Fetcher.stdout := [] |}.

(** The figure of [plateau_rows] for its one country, its line and its
    marker. *)
Definition plateau_figure : Figure :=
  Eval vm_compute in
    match dashboard plateau_rows (Some ["C"]) with
    | Ok fig => fig
    | Raise _ => new_figure
    end.

Definition plateau_line : Scatter :=
  Eval vm_compute in line_trace (country_frame (loaded plateau_rows) "C") "C".

Definition plateau_marker : Scatter := marker_trace (march 3) (Some 15).

(** ** Frame operations *)

Lemma select_rows_map (p : Line → bool) (ls : list Line) :
  select_rows (map p ls) ls = Ok (List.filter p ls).
Proof.
  induction ls as [|l ls IH]; simpl; [done|].
  rewrite IH. by destruct (p l).
Qed.

Lemma length_diff_after prev s : length (diff_after prev s) = length s.
Proof. revert prev. induction s as [|v s IH]; intros prev; simpl; [done|]. by rewrite IH. Qed.

Lemma map_delta_assign vals ls :
  length vals = length ls → map delta (assign_delta vals ls) = vals.
Proof.
  revert vals. induction ls as [|l ls IH]; intros [|v vals] Hlen; simpl in *; try done.
  rewrite IH; [done | lia].
Qed.

Lemma delta_in_add_column cols : "delta" ∈ add_column "delta" cols.
Proof.
  unfold add_column. case_bool_decide as Hin; [done|].
  apply elem_of_app. right. by apply list_elem_of_singleton.
Qed.

Lemma getitem_delta_country_frame d country :
  getitem_delta (country_frame d country)
  = Ok (map delta (lines (country_frame d country))).
Proof.
  unfold getitem_delta. rewrite bool_decide_eq_true_2; [done|].
  apply delta_in_add_column.
Qed.

(** ** Heap operations, run *)

Lemma deref_run r f h : objs h !! r = Some f → deref r h = (h, Ok f).
Proof. intros Hr. unfold deref. by rewrite Hr. Qed.

Lemma getitem_mask_run r f p h :
  objs h !! r = Some f →
  getitem_mask r (map p (lines f)) h
  = (alloc {| columns := columns f; lines := List.filter p (lines f) |} h,
     Ok (next_id h)).
Proof.
  intros Hr. unfold getitem_mask, bind, lift. rewrite (deref_run _ _ _ Hr).
  by rewrite select_rows_map.
Qed.

Lemma sort_values_date_run r f h :
  objs h !! r = Some f →
  sort_values_date r h
  = (alloc {| columns := columns f; lines := sort_by_date (lines f) |} h,
     Ok (next_id h)).
Proof. intros Hr. unfold sort_values_date, bind. by rewrite (deref_run _ _ _ Hr). Qed.

Lemma setitem_delta_run r f vals h :
  objs h !! r = Some f →
  setitem_delta r vals h
  = (store r {| columns := add_column "delta" (columns f);
                lines := assign_delta vals (lines f) |} h, Ok tt).
Proof. intros Hr. unfold setitem_delta. by rewrite Hr. Qed.

Lemma lookup_alloc_new f h : objs (alloc f h) !! next_id h = Some f.
Proof. apply lookup_insert_eq. Qed.

Lemma lookup_alloc_old f h r :
  (r < next_id h)%nat → objs (alloc f h) !! r = objs h !! r.
Proof. intros Hlt. apply lookup_insert_ne. lia. Qed.

Lemma lookup_store_eq r f h : objs (store r f h) !! r = Some f.
Proof. apply lookup_insert_eq. Qed.

Lemma lookup_store_ne r r' f h : r ≠ r' → objs (store r f h) !! r' = objs h !! r'.
Proof. intros Hne. by apply lookup_insert_ne. Qed.

(** ** The loop body on the heap *)

Lemma chart_country_run df d fig country h :
  objs h !! df = Some d →
  (df < next_id h)%nat →
  ∃ h', chart_country df fig country h = (h', country_step d fig country)
        ∧ objs h' !! df = Some d
        ∧ (df < next_id h')%nat
        ∧ objs h' !! S (next_id h) = Some (country_frame d country).
Proof.
  intros Hdf Hlt.
  unfold chart_country, bind.
  rewrite (deref_run _ _ _ Hdf).
  rewrite (getitem_mask_run _ _ _ _ Hdf).
  set (h1 := alloc _ h).
  rewrite (sort_values_date_run _ _ h1 (lookup_alloc_new _ h)).
  cbn [columns lines].
  set (h2 := alloc _ h1).
  pose proof (lookup_alloc_new _ h1 : objs h2 !! next_id h1 = Some _) as H2.
  rewrite (deref_run _ _ _ H2), (setitem_delta_run _ _ _ _ H2).
  cbn [columns lines].
  set (h3 := store _ _ h2).
  assert (H3 : objs h3 !! next_id h1 = Some (country_frame d country))
    by apply lookup_store_eq.
  rewrite (deref_run _ _ _ H3).
  unfold lift. rewrite getitem_delta_country_frame, map_map.
  rewrite (getitem_mask_run _ _ (fun l => gt0 (delta l)) _ H3).
  set (h4 := alloc _ h3).
  rewrite (deref_run _ _ h4 (lookup_alloc_new _ h3)).
  assert (H4 : objs h4 !! next_id h1 = Some (country_frame d country)).
  { unfold h4. rewrite lookup_alloc_old; [done | simpl; lia]. }
  assert (H4df : objs h4 !! df = Some d).
  { unfold h4. rewrite lookup_alloc_old by (simpl; lia).
    unfold h3. rewrite lookup_store_ne by (simpl; lia).
    unfold h2. rewrite lookup_alloc_old by (simpl; lia).
    unfold h1. by rewrite lookup_alloc_old. }
  unfold last_valid_index_of, index, country_step. cbn [lines]. cbv zeta.
  fold (increases_of (country_frame d country)).
  exists h4.
  destruct (truthy_index _).
  - rewrite (deref_run _ _ _ H4).
    destruct (loc_line _ _); (split; [done|]); repeat split; try done; simpl; lia.
  - unfold ret. repeat split; try done; simpl; lia.
Qed.

Lemma for_countries_run df d cs : ∀ fig h,
  objs h !! df = Some d →
  (df < next_id h)%nat →
  ∃ h', for_countries df fig cs h = (h', countries_steps d fig cs)
        ∧ objs h' !! df = Some d
        ∧ (df < next_id h')%nat.
Proof.
  induction cs as [|country rest IH]; intros fig h Hdf Hlt; simpl.
  - by exists h.
  - destruct (chart_country_run df d fig country h Hdf Hlt)
      as (h1 & Hrun & Hdf1 & Hlt1 & _).
    unfold bind. rewrite Hrun.
    destruct (country_step d fig country) as [fig1|e].
    + apply IH; done.
    + by exists h1.
Qed.

(** The callback returns what [render] computes from the frame behind
    [df], and leaves that frame as it is. *)
Lemma update_chart_run df d selected_countries h :
  objs h !! df = Some d →
  (df < next_id h)%nat →
  ∃ h', update_chart df selected_countries h = (h', render d selected_countries)
        ∧ objs h' !! df = Some d
        ∧ (df < next_id h')%nat.
Proof.
  intros Hdf Hlt. unfold update_chart, render.
  destruct (negb (truthy_selection selected_countries)).
  - by exists h.
  - unfold bind, lift. rewrite (deref_run _ _ _ Hdf).
    destruct (strftime (series_min _)) as [gmin|e]; [|by exists h].
    rewrite (deref_run _ _ _ Hdf).
    destruct (strftime (series_max _)) as [gmax|e]; [|by exists h].
    destruct (for_countries_run df d (default [] selected_countries) new_figure h Hdf Hlt)
      as (h1 & Hrun & Hdf1 & Hlt1).
    rewrite Hrun. exists h1.
    by destruct (countries_steps _ _ _).
Qed.

(** ** Dates: the order and its extremes *)

Lemma date_leb_le a b : date_leb a b = true ↔ date_le a b.
Proof.
  unfold date_leb, date_le.
  rewrite orb_true_iff, andb_true_iff, orb_true_iff, andb_true_iff.
  rewrite !Z.ltb_lt, !Z.eqb_eq, Z.leb_le. tauto.
Qed.

Lemma date_le_refl a : date_le a a.
Proof. unfold date_le. lia. Qed.

Lemma date_le_trans a b c : date_le a b → date_le b c → date_le a c.
Proof. unfold date_le. lia. Qed.

Lemma date_le_total a b : date_le a b ∨ date_le b a.
Proof. unfold date_le. lia. Qed.

Lemma date_le_antisym a b : date_le a b → date_le b a → a = b.
Proof.
  destruct a as [ya ma da], b as [yb mb db]. unfold date_le. simpl.
  intros H1 H2. f_equal; lia.
Qed.

Lemma date_leb_false a b : date_leb a b = false → date_le b a.
Proof.
  intros Hf. destruct (date_le_total a b) as [Hab|Hba]; [|done].
  apply date_leb_le in Hab. congruence.
Qed.

Lemma date_min2_le_l a b : date_le (date_min2 a b) a.
Proof.
  unfold date_min2. destruct (date_leb a b) eqn:E.
  - apply date_le_refl.
  - by apply date_leb_false.
Qed.

Lemma date_min2_le_r a b : date_le (date_min2 a b) b.
Proof.
  unfold date_min2. destruct (date_leb a b) eqn:E.
  - by apply date_leb_le.
  - apply date_le_refl.
Qed.

Lemma date_max2_ge_l a b : date_le a (date_max2 a b).
Proof.
  unfold date_max2. destruct (date_leb a b) eqn:E.
  - by apply date_leb_le.
  - apply date_le_refl.
Qed.

Lemma date_max2_ge_r a b : date_le b (date_max2 a b).
Proof.
  unfold date_max2. destruct (date_leb a b) eqn:E.
  - apply date_le_refl.
  - by apply date_leb_false.
Qed.

Lemma fold_min_spec s : ∀ d0,
  let m := fold_left date_min2 s d0 in
  (m = d0 ∨ m ∈ s) ∧ date_le m d0 ∧ ∀ e, e ∈ s → date_le m e.
Proof.
  induction s as [|e0 s IH]; intros d0; simpl.
  - split; [by left|]. split; [apply date_le_refl|]. intros e He. by apply elem_of_nil in He.
  - destruct (IH (date_min2 d0 e0)) as (Hmem & Hle & Hall).
    split; [|split].
    + destruct Hmem as [->|Hin].
      * unfold date_min2. destruct (date_leb d0 e0); [by left | right; left].
      * right. by right.
    + eapply date_le_trans; [exact Hle | apply date_min2_le_l].
    + intros e He. apply elem_of_cons in He as [->|He].
      * eapply date_le_trans; [exact Hle | apply date_min2_le_r].
      * by apply Hall.
Qed.

Lemma fold_max_spec s : ∀ d0,
  let m := fold_left date_max2 s d0 in
  (m = d0 ∨ m ∈ s) ∧ date_le d0 m ∧ ∀ e, e ∈ s → date_le e m.
Proof.
  induction s as [|e0 s IH]; intros d0; simpl.
  - split; [by left|]. split; [apply date_le_refl|]. intros e He. by apply elem_of_nil in He.
  - destruct (IH (date_max2 d0 e0)) as (Hmem & Hle & Hall).
    split; [|split].
    + destruct Hmem as [->|Hin].
      * unfold date_max2. destruct (date_leb d0 e0); [right; left | by left].
      * right. by right.
    + eapply date_le_trans; [apply date_max2_ge_l | exact Hle].
    + intros e He. apply elem_of_cons in He as [->|He].
      * eapply date_le_trans; [apply date_max2_ge_r | exact Hle].
      * by apply Hall.
Qed.

Lemma series_min_earliest s :
  s ≠ [] → ∃ m, series_min s = Some m ∧ earliest_of s m.
Proof.
  destruct s as [|d0 s]; [done|]. intros _. simpl.
  eexists; split; [done|].
  destruct (fold_min_spec s d0) as (Hmem & Hle & Hall). split.
  - destruct Hmem as [->|Hin]; [left | by right].
  - intros e He. apply elem_of_cons in He as [->|He]; [done | by apply Hall].
Qed.

Lemma series_max_latest s :
  s ≠ [] → ∃ m, series_max s = Some m ∧ latest_of s m.
Proof.
  destruct s as [|d0 s]; [done|]. intros _. simpl.
  eexists; split; [done|].
  destruct (fold_max_spec s d0) as (Hmem & Hle & Hall). split.
  - destruct Hmem as [->|Hin]; [left | by right].
  - intros e He. apply elem_of_cons in He as [->|He]; [done | by apply Hall].
Qed.

Lemma earliest_unique s m1 m2 : earliest_of s m1 → earliest_of s m2 → m1 = m2.
Proof. intros [H1 A1] [H2 A2]. apply date_le_antisym; auto. Qed.

Lemma latest_unique s m1 m2 : latest_of s m1 → latest_of s m2 → m1 = m2.
Proof. intros [H1 A1] [H2 A2]. apply date_le_antisym; auto. Qed.

(** ** What one country adds to the figure *)

Lemma find_label_is_Some lbl ls :
  lbl ∈ map label ls →
  ∃ l, List.find (fun l => Nat.eqb (label l) lbl) ls = Some l ∧ label l = lbl.
Proof.
  induction ls as [|l0 ls IH]; simpl; intros Hin.
  - by apply elem_of_nil in Hin.
  - destruct (Nat.eqb (label l0) lbl) eqn:E.
    + exists l0. split; [done|]. by apply Nat.eqb_eq.
    + apply elem_of_cons in Hin as [->|Hin]; [|by apply IH].
      rewrite Nat.eqb_refl in E. discriminate.
Qed.

Lemma last_elem_of {A} (l : list A) a : last l = Some a → a ∈ l.
Proof.
  intros Hl. apply last_Some in Hl as [l' ->].
  apply elem_of_app. right. by apply list_elem_of_singleton.
Qed.

Lemma increases_label_elem_of c lbl :
  last (map label (increases_of c)) = Some lbl → lbl ∈ map label (lines c).
Proof.
  intros Hl. apply last_elem_of in Hl.
  apply list_elem_of_fmap in Hl as (l & -> & Hin).
  apply list_elem_of_fmap. exists l. split; [done|].
  unfold increases_of in Hin. apply list_elem_of_In in Hin.
  apply List.filter_In in Hin as [Hin _]. by apply list_elem_of_In.
Qed.

(** Line 100 finds the row it looks up: the label was taken from a row of
    the same frame. *)
Lemma loc_line_last_increase c lbl :
  last (map label (increases_of c)) = Some lbl →
  ∃ l, loc_line lbl c = Ok l ∧ label l = lbl.
Proof.
  intros Hl. apply increases_label_elem_of in Hl.
  destruct (find_label_is_Some _ _ Hl) as (l & Hfind & Hlbl).
  exists l. unfold loc_line. by rewrite Hfind.
Qed.

Lemma country_step_ok d fig country :
  country_step d fig country
  = Ok {| data := data fig ++ country_traces d country;
          annotations := annotations fig ++ country_annotations d country;
          layout := layout fig |}.
Proof.
  unfold country_step, country_traces, country_annotations, country_marks.
  cbv zeta.
  destruct (last (map label (increases_of (country_frame d country))))
    as [lbl|] eqn:Hlast; simpl.
  - destruct lbl as [|n]; simpl.
    + by rewrite app_nil_r.
    + destruct (loc_line_last_increase _ _ Hlast) as (l & -> & _).
      unfold add_annotation, add_trace. simpl. by rewrite <- app_assoc.
  - by rewrite app_nil_r.
Qed.

Lemma countries_steps_ok d cs : ∀ fig,
  countries_steps d fig cs
  = Ok {| data := data fig ++ flat_map (country_traces d) cs;
          annotations := annotations fig ++ flat_map (country_annotations d) cs;
          layout := layout fig |}.
Proof.
  induction cs as [|country rest IH]; intros fig; simpl.
  - rewrite !app_nil_r. by destruct fig.
  - rewrite country_step_ok, IH. simpl. by rewrite <- !app_assoc.
Qed.

(** With at least one row behind [df], the callback's result for a
    non-empty selection. *)
Lemma render_nonempty d country rest :
  lines d ≠ [] →
  ∃ dmin dmax gmin gmax,
    earliest_of (map date (lines d)) dmin ∧
    latest_of (map date (lines d)) dmax ∧
    strftime (Some dmin) = Ok gmin ∧
    strftime (Some dmax) = Ok gmax ∧
    render d (Some (country :: rest))
    = Ok {| data := flat_map (country_traces d) (country :: rest);
            annotations := flat_map (country_annotations d) (country :: rest);
            layout := Some (chart_layout gmin gmax) |}.
Proof.
  intros Hne.
  assert (Hdates : map date (lines d) ≠ []) by (by destruct (lines d)).
  destruct (series_min_earliest _ Hdates) as (dmin & Hmin & Hearliest).
  destruct (series_max_latest _ Hdates) as (dmax & Hmax & Hlatest).
  exists dmin, dmax. eexists _, _.
  split; [done|]. split; [done|]. split; [done|]. split; [done|].
  unfold render. cbn [truthy_selection negb default].
  rewrite Hmin, Hmax. cbn [strftime].
  by rewrite countries_steps_ok.
Qed.

(** On an empty frame the first [strftime] is applied to [NaT]. *)
Lemma render_empty_frame d country rest :
  lines d = [] → render d (Some (country :: rest)) = Raise ValueError.
Proof. intros Hd. unfold render. cbn [truthy_selection negb]. by rewrite Hd. Qed.

(** * The fetcher *)

Import Fetcher.

Lemma prefix_append (s t : string) : String.prefix s (s +:+ t) = true.
Proof.
  induction s as [|a s IH]; simpl; [by destruct t|].
  destruct (Ascii.ascii_dec a a); [done | congruence].
Qed.

Lemma contains_prefix (needle hay : string) :
  String.prefix needle hay = true → contains needle hay = true.
Proof. intros Hp. destruct hay; cbn [contains]; by rewrite Hp. Qed.

Lemma contains_append_l (needle t : string) : contains needle (needle +:+ t) = true.
Proof. apply contains_prefix, prefix_append. Qed.

Lemma contains_append_r (needle p hay : string) :
  contains needle hay = true → contains needle (p +:+ hay) = true.
Proof.
  intros Hc. induction p as [|a p IH]; simpl; [done|].
  rewrite IH. apply orb_true_r.
Qed.

Lemma filepath_not_ledger today : filepath today ≠ LOG_FILE.
Proof. unfold filepath, LOG_FILE. simpl. discriminate. Qed.

(** The fast path: with today's label in the ledger nothing happens. *)
Lemma download_logged today reply w :
  logged_today today w = true → download_if_needed today reply w = (w, Ok tt).
Proof. intros Hl. unfold download_if_needed. by rewrite Hl. Qed.

(** What a call that returns normally has done. *)
Lemma download_ok_inv today reply w w' :
  download_if_needed today reply w = (w', Ok tt) →
  (logged_today today w = true ∧ w' = w)
  ∨ (logged_today today w = false ∧
     ∃ status_code content,
       reply = Response status_code content ∧
       is_error_status status_code = false ∧
       w' = append_file LOG_FILE (today +:+ " - Downloaded" +:+ nl)
              (write_file (filepath today) content
                 {| fs := fs w; requests := S (requests w);
                    stdout := stdout w ++ ["[INFO] Downloading COVID dataset..."] |})).
Proof.
  unfold download_if_needed. destruct (logged_today today w) eqn:Hl.
  - intros [= <-]. by left.
  - destruct reply as [|status_code content]; [done|].
    destruct (is_error_status status_code) eqn:Hs; [done|].
    intros [= <-]. right. split; [done|]. by exists status_code, content.
Qed.

Lemma logged_after_append today data w :
  logged_today today (append_file LOG_FILE (today +:+ data) w) = true.
Proof.
  unfold logged_today, append_file. simpl. rewrite lookup_insert_eq.
  apply contains_append_r, contains_append_l.
Qed.

(** After a call that returned normally today's label is in the ledger. *)
Lemma download_ok_logged today reply w w' :
  download_if_needed today reply w = (w', Ok tt) → logged_today today w' = true.
Proof.
  intros Hrun. apply download_ok_inv in Hrun as [[Hl ->]|(_ & s & c & _ & _ & ->)].
  - done.
  - apply logged_after_append.
Qed.

(** C2. With a ledger file whose contents contain today's label, a call
    of [download_if_needed] returns normally and leaves the world as it
    was: no request is sent, the cache file is not written and nothing is
    appended to the ledger.  Hence of two calls in a row of which the first
    returns normally, the second changes nothing, and together they send at
    most one request. *)
Theorem download_if_needed_idempotent today reply w log :
  fs w !! LOG_FILE = Some log →
  contains today log = true →
  download_if_needed today reply w = (w, Ok tt)
  ∧ ∀ reply1 reply2 w0 w1,
      download_if_needed today reply1 w0 = (w1, Ok tt) →
      download_if_needed today reply2 w1 = (w1, Ok tt)
      ∧ (requests w1 ≤ S (requests w0))%nat.
Proof.
  intros Hlog Hin. split.
  - apply download_logged. unfold logged_today. by rewrite Hlog.
  - intros reply1 reply2 w0 w1 Hrun. split.
    + apply download_logged. by eapply download_ok_logged.
    + apply download_ok_inv in Hrun as [[_ ->]|(_ & s & c & _ & _ & ->)]; simpl; lia.
Qed.

(** C8, as the code has it.  A call of [download_if_needed] that returns
    normally either took the fast path and left the file system as it was,
    so that the cache file exists only if it existed before, or it
    downloaded, and then the cache file exists and holds the body of the
    response. *)
Theorem download_ok_cache_file today reply w w' :
  download_if_needed today reply w = (w', Ok tt) →
  (logged_today today w = true ∧ fs w' = fs w)
  ∨ (logged_today today w = false ∧
     ∃ status_code content,
       reply = Response status_code content ∧
       open_for_read (filepath today) w' = Ok content).
Proof.
  intros Hrun.
  apply download_ok_inv in Hrun as [[Hl ->]|(Hl & s & c & -> & _ & ->)].
  - by left.
  - right. split; [done|]. exists s, c. split; [done|].
    unfold open_for_read, append_file, write_file. simpl.
    rewrite lookup_insert_ne by (intros Heq; by apply (filepath_not_ledger today)).
    by rewrite lookup_insert_eq.
Qed.

(** * The loader *)

Lemma load_run rows :
  Loader.load rows empty_heap
  = (alloc (loaded rows) (alloc (Loader.read_csv rows) empty_heap), Ok 1%nat).
Proof.
  unfold Loader.load, bind, new_frame, ret. cbn [next_id objs empty_heap].
  pose proof (lookup_alloc_new (Loader.read_csv rows) empty_heap) as H0.
  change (alloc (Loader.read_csv rows) empty_heap) with
    {| objs := <[0%nat := Loader.read_csv rows]> ∅; next_id := 1 |} in H0.
  cbn [next_id empty_heap] in H0.
  rewrite (deref_run _ _ _ H0), (getitem_mask_run _ _ _ _ H0). done.
Qed.

Lemma filter_notna_all ls :
  Forall (fun l => total_cases l ≠ None)
    (List.filter (fun l => notna (total_cases l)) ls).
Proof.
  apply List.Forall_forall. intros l Hin.
  apply List.filter_In in Hin as [_ Hn].
  destruct (total_cases l); [done | discriminate].
Qed.

Lemma serve_preserves df d events : ∀ h,
  objs h !! df = Some d →
  (df < next_id h)%nat →
  objs (serve df events h) !! df = Some d ∧ (df < next_id (serve df events h))%nat.
Proof.
  induction events as [|sel events IH]; intros h Hdf Hlt; simpl; [done|].
  destruct (update_chart_run df d sel h Hdf Hlt) as (h1 & Hrun & Hdf1 & Hlt1).
  rewrite Hrun. simpl. by apply IH.
Qed.

(** C4. The frame bound to [df] by the loader has a value in the metric
    column of every row, and after any sequence of callbacks [df] still
    refers to that same frame. *)
Theorem loaded_metric_never_missing (rows : list Loader.CsvRow)
    (events : list (option (list string))) :
  ∃ h0 df d,
    Loader.load rows empty_heap = (h0, Ok df)
    ∧ objs h0 !! df = Some d
    ∧ Forall (fun l => total_cases l ≠ None) (lines d)
    ∧ objs (serve df events h0) !! df = Some d.
Proof.
  eexists _, _, _. split; [apply load_run|].
  split; [apply lookup_alloc_new|].
  split; [apply filter_notna_all|].
  apply serve_preserves; [apply lookup_alloc_new | simpl; lia].
Qed.

(** * The callback *)

(** C3. For the empty selection the callback returns, for every heap and
    hence every dataset, the figure [go.Figure()] as a normal result: no
    trace, no annotation, the default layout; the heap is not touched. *)
Theorem empty_selection_empty_chart (df : nat) (h : Heap) :
  update_chart df (Some []) h = (h, Ok new_figure)
  ∧ data new_figure = []
  ∧ annotations new_figure = []
  ∧ layout new_figure = None.
Proof. done. Qed.

(** C10. A selection of [None] is handled like the empty list: the
    callback returns the empty figure and does not raise. *)
Theorem none_selection_empty_chart (df : nat) (h : Heap) :
  update_chart df None h = (h, Ok new_figure)
  ∧ update_chart df None h = update_chart df (Some []) h.
Proof. done. Qed.

(** C9. The callback leaves the frame behind [df] as it is, whether it
    returns or raises, although the loop body writes a [delta] column: that
    column goes into the body's own sorted copy, a different object. *)
Theorem update_chart_leaves_df_unchanged df d selected_countries h :
  objs h !! df = Some d →
  (df < next_id h)%nat →
  objs (update_chart df selected_countries h).1 !! df = Some d
  ∧ ∀ fig country,
      let h' := (chart_country df fig country h).1 in
      objs h' !! df = Some d
      ∧ S (next_id h) ≠ df
      ∧ ∃ c, objs h' !! S (next_id h) = Some c ∧ "delta" ∈ columns c.
Proof.
  intros Hdf Hlt. split.
  - destruct (update_chart_run df d selected_countries h Hdf Hlt) as (h1 & -> & Hdf1 & _).
    done.
  - intros fig country.
    destruct (chart_country_run df d fig country h Hdf Hlt) as (h1 & -> & Hdf1 & _ & Hc).
    cbn zeta. simpl. split; [done|]. split; [lia|].
    exists (country_frame d country). split; [done|]. apply delta_in_add_column.
Qed.

Lemma render_contributions d cs :
  lines d ≠ [] ∨ cs = [] →
  ∃ fig, render d (Some cs) = Ok fig
         ∧ data fig = flat_map (country_traces d) cs
         ∧ annotations fig = flat_map (country_annotations d) cs.
Proof.
  intros Hne. destruct cs as [|country rest].
  - by exists new_figure.
  - destruct Hne as [Hne|?]; [|done].
    destruct (render_nonempty d country rest Hne)
      as (dmin & dmax & gmin & gmax & _ & _ & _ & _ & ->).
    by eexists.
Qed.

Lemma country_marks_no_line d country :
  List.filter is_line_trace (country_marks d country).1 = [].
Proof.
  unfold country_marks. cbv zeta.
  destruct (truthy_index _); [|done].
  by destruct (loc_line _ _).
Qed.

Lemma line_names_country_traces d cs :
  map name (List.filter is_line_trace (flat_map (country_traces d) cs)) = map Some cs.
Proof.
  induction cs as [|country rest IH]; [done|].
  cbn [flat_map]. rewrite List.filter_app, map_app, IH.
  unfold country_traces. cbn [List.filter is_line_trace line_trace mode].
  by rewrite country_marks_no_line.
Qed.

Lemma filter_location_unknown country ls :
  country ∉ map location ls →
  List.filter (fun l => String.eqb (location l) country) ls = [].
Proof.
  induction ls as [|l ls IH]; intros Hnot; simpl; [done|].
  rewrite fmap_cons in Hnot. apply not_elem_of_cons in Hnot as [Hne Hnot].
  destruct (String.eqb_spec (location l) country) as [Heq|_]; [congruence|].
  by apply IH.
Qed.

Lemma country_frame_unknown d country :
  country ∉ map location (lines d) → lines (country_frame d country) = [].
Proof. intros Hnot. unfold country_frame. simpl. by rewrite filter_location_unknown. Qed.

Lemma country_traces_unknown d country :
  country ∉ map location (lines d) →
  country_traces d country = [empty_line_trace country]
  ∧ country_annotations d country = [].
Proof.
  intros Hnot. apply country_frame_unknown in Hnot.
  unfold country_traces, country_annotations, country_marks, increases_of, line_trace.
  cbv zeta. by rewrite Hnot.
Qed.

(** C5. For a non-empty selection over a dataset with at least one row,
    the title is built from the earliest and the latest date of the whole
    frame behind [df]; every other non-empty selection gets the same
    layout, title included. *)
Theorem title_spans_whole_dataset df d country rest h :
  objs h !! df = Some d →
  (df < next_id h)%nat →
  lines d ≠ [] →
  ∃ fig lo dmin dmax gmin gmax,
    (update_chart df (Some (country :: rest)) h).2 = Ok fig
    ∧ layout fig = Some lo
    ∧ earliest_of (map date (lines d)) dmin
    ∧ latest_of (map date (lines d)) dmax
    ∧ strftime (Some dmin) = Ok gmin
    ∧ strftime (Some dmax) = Ok gmax
    ∧ title lo = "Total COVID-19 Cases (" +:+ gmin +:+ " – " +:+ gmax +:+ ")"
    ∧ ∀ country' rest',
        ∃ fig', (update_chart df (Some (country' :: rest')) h).2 = Ok fig'
                ∧ layout fig' = Some lo.
Proof.
  intros Hdf Hlt Hne.
  destruct (render_nonempty d country rest Hne)
    as (dmin & dmax & gmin & gmax & Hmin & Hmax & Hgmin & Hgmax & Hr).
  destruct (update_chart_run df d (Some (country :: rest)) h Hdf Hlt) as (h1 & -> & _).
  eexists _, _, dmin, dmax, gmin, gmax.
  split; [exact Hr|]. split; [done|]. do 4 (split; [done|]). split; [done|].
  intros country' rest'.
  destruct (render_nonempty d country' rest' Hne)
    as (dmin' & dmax' & gmin' & gmax' & Hmin' & Hmax' & Hgmin' & Hgmax' & Hr').
  destruct (update_chart_run df d (Some (country' :: rest')) h Hdf Hlt) as (h2 & -> & _).
  eexists. split; [exact Hr'|]. simpl.
  assert (dmin' = dmin) as -> by (by eapply earliest_unique).
  assert (dmax' = dmax) as -> by (by eapply latest_unique).
  congruence.
Qed.

(** C6. The names of the line traces of the figure, in the order of the
    traces, are the selected countries in the order of the selection. *)
Theorem line_traces_in_selection_order df d (cs : list string) h :
  objs h !! df = Some d →
  (df < next_id h)%nat →
  lines d ≠ [] ∨ cs = [] →
  ∃ fig, (update_chart df (Some cs) h).2 = Ok fig
         ∧ map name (List.filter is_line_trace (data fig)) = map Some cs.
Proof.
  intros Hdf Hlt Hne.
  destruct (update_chart_run df d (Some cs) h Hdf Hlt) as (h1 & -> & _).
  destruct (render_contributions d cs Hne) as (fig & Hr & Hdata & _).
  exists fig. split; [done|]. rewrite Hdata. apply line_names_country_traces.
Qed.

(** C7, as the code has it.  Over a dataset with at least one row, a
    selected name that is no location of the dataset does not make the
    callback raise; it adds exactly one line trace under that name, with
    no points, and neither a marker nor an annotation.  The figure is that
    of the names before it, this one trace, and that of the names after
    it. *)
Theorem unknown_country_adds_empty_trace df d (pre post : list string) country h :
  objs h !! df = Some d →
  (df < next_id h)%nat →
  lines d ≠ [] →
  country ∉ map location (lines d) →
  ∃ fig fig_pre fig_post,
    (update_chart df (Some (pre ++ country :: post)) h).2 = Ok fig
    ∧ (update_chart df (Some pre) h).2 = Ok fig_pre
    ∧ (update_chart df (Some post) h).2 = Ok fig_post
    ∧ data fig = data fig_pre ++ [empty_line_trace country] ++ data fig_post
    ∧ annotations fig = annotations fig_pre ++ annotations fig_post.
Proof.
  intros Hdf Hlt Hne Hnot.
  destruct (update_chart_run df d (Some (pre ++ country :: post)) h Hdf Hlt)
    as (h1 & -> & _).
  destruct (update_chart_run df d (Some pre) h Hdf Hlt) as (h2 & -> & _).
  destruct (update_chart_run df d (Some post) h Hdf Hlt) as (h3 & -> & _).
  destruct (render_contributions d (pre ++ country :: post) (or_introl Hne))
    as (fig & -> & Hdata & Hann).
  destruct (render_contributions d pre (or_introl Hne)) as (fig1 & -> & Hdata1 & Hann1).
  destruct (render_contributions d post (or_introl Hne)) as (fig2 & -> & Hdata2 & Hann2).
  exists fig, fig1, fig2. do 3 (split; [done|]).
  destruct (country_traces_unknown d country Hnot) as [Ht Ha].
  rewrite Hdata, Hann, Hdata1, Hann1, Hdata2, Hann2.
  rewrite !List.flat_map_app. cbn [flat_map]. rewrite Ht, Ha. done.
Qed.

(** ** The last increase *)

Lemma diff_after_lookup s : ∀ prev i v p,
  s !! i = Some p → s !! S i = Some v →
  diff_after prev s !! S i = Some (sub_cells v p).
Proof.
  induction s as [|v0 s IH]; intros prev i v p Hp Hv; [done|].
  destruct i as [|i]; simpl in *.
  - injection Hp as ->. destruct s as [|v1 s]; [done|]. simpl in *. by injection Hv as ->.
  - by apply IH.
Qed.

(** [diff] is the value of a row minus the value of the row before it. *)
Lemma diff_lookup s i v p :
  s !! i = Some p → s !! S i = Some v → diff s !! S i = Some (sub_cells v p).
Proof. apply diff_after_lookup. Qed.

Lemma diff_first v s : diff (v :: s) !! 0%nat = Some None.
Proof. unfold diff. simpl. by destruct v. Qed.

Lemma label_assign_delta vals ls : ∀ vals',
  vals' = vals → map label (assign_delta vals' ls) = map label ls.
Proof.
  revert vals. induction ls as [|l ls IH]; intros vals vals' ->; simpl; [done|].
  f_equal. by eapply IH.
Qed.

Lemma insert_by_date_perm l ls : insert_by_date l ls ≡ₚ l :: ls.
Proof.
  induction ls as [|l' ls IH]; simpl; [done|].
  destruct (date_leb (date l) (date l')); [done|].
  rewrite IH. apply Permutation_swap.
Qed.

Lemma sort_by_date_perm ls : sort_by_date ls ≡ₚ ls.
Proof.
  induction ls as [|l ls IH]; simpl; [done|].
  by rewrite insert_by_date_perm, IH.
Qed.

Lemma NoDup_label_filter (p : Line → bool) ls :
  NoDup (map label ls) → NoDup (map label (List.filter p ls)).
Proof.
  induction ls as [|l ls IH]; simpl; [done|].
  intros Hnd. apply NoDup_cons in Hnd as [Hnot Hnd].
  destruct (p l); [|by apply IH].
  simpl. apply NoDup_cons. split; [|by apply IH].
  intros Hin. apply Hnot.
  apply list_elem_of_fmap in Hin as (l' & Heq & Hin).
  apply list_elem_of_fmap. exists l'. split; [done|].
  apply list_elem_of_In in Hin. apply List.filter_In in Hin as [Hin _].
  by apply list_elem_of_In.
Qed.

Lemma NoDup_index_country_frame d country :
  NoDup (index d) → NoDup (index (country_frame d country)).
Proof.
  intros Hnd. unfold index, country_frame. cbn [lines].
  rewrite (label_assign_delta _ _ _ eq_refl).
  eapply (NoDup_Permutation_proper _ _ _).
  Unshelve.
  3: { apply fmap_Permutation, sort_by_date_perm. }
  by apply NoDup_label_filter.
Qed.

Lemma find_label_NoDup l ls :
  NoDup (map label ls) → l ∈ ls →
  List.find (fun l' => Nat.eqb (label l') (label l)) ls = Some l.
Proof.
  induction ls as [|l0 ls IH]; intros Hnd Hin; [by apply elem_of_nil in Hin|].
  simpl in *. apply NoDup_cons in Hnd as [Hnot Hnd].
  apply elem_of_cons in Hin as [->|Hin].
  - by rewrite Nat.eqb_refl.
  - destruct (Nat.eqb_spec (label l0) (label l)) as [Heq|_]; [|by apply IH].
    exfalso. apply Hnot. rewrite Heq. apply list_elem_of_fmap. by exists l.
Qed.

(** When the labels of the dataset are distinct, line 99 lets the marker
    and the annotation through exactly when the last row with a positive
    difference has a label other than [0]; they sit on that row. *)
Lemma country_marks_spec d country :
  NoDup (index d) →
  country_marks d country =
    match last (increases_of (country_frame d country)) with
    | Some l =>
        if Nat.eqb (label l) 0 then ([], [])
        else ([marker_trace (date l) (total_cases l)],
              [stopped_annotation (date l) (total_cases l) country])
    | None => ([], [])
    end.
Proof.
  intros Hnd. unfold country_marks. cbv zeta.
  change (map label ?l) with (label <$> l). rewrite fmap_last.
  destruct (last (increases_of (country_frame d country))) as [l|] eqn:Hlast; [|done].
  cbn [fmap option_fmap option_map truthy_index default].
  destruct (label l) as [|n] eqn:Hlbl; [done|]. cbn [Nat.eqb].
  assert (Hin : l ∈ lines (country_frame d country)).
  { apply last_elem_of in Hlast. unfold increases_of in Hlast.
    apply list_elem_of_In in Hlast. apply List.filter_In in Hlast as [Hin _].
    by apply list_elem_of_In. }
  unfold loc_line. rewrite <- Hlbl. unfold id.
  by rewrite (find_label_NoDup l _ (NoDup_index_country_frame d country Hnd) Hin).
Qed.

Lemma index_read_csv_from rows : ∀ n,
  map label (imap (fun i r => mkLine (n + i) (Loader.csv_location r) (Loader.csv_date r)
                                (Loader.csv_total_cases r) None) rows)
  = seq n (length rows).
Proof.
  induction rows as [|r rows IH]; intros n; [done|].
  rewrite imap_cons. simpl. f_equal; [lia|].
  rewrite <- IH. f_equal. apply imap_ext. intros i r' _. simpl. f_equal. lia.
Qed.

(** The frame the loader binds to [df] has distinct labels. *)
Lemma NoDup_index_loaded rows : NoDup (index (loaded rows)).
Proof.
  unfold index, loaded. cbn [lines]. apply NoDup_label_filter.
  unfold Loader.read_csv. cbn [lines].
  pose proof (index_read_csv_from rows 0) as Hseq. cbn [Nat.add] in Hseq.
  rewrite Hseq. apply NoDup_seq.
Qed.

(** ** The working frame of a country *)

Lemma total_cases_assign_delta vals ls :
  map total_cases (assign_delta vals ls) = map total_cases ls.
Proof.
  revert vals. induction ls as [|l ls IH]; intros vals; simpl; [done|].
  by rewrite IH.
Qed.

Lemma date_assign_delta vals ls :
  map date (assign_delta vals ls) = map date ls.
Proof.
  revert vals. induction ls as [|l ls IH]; intros vals; simpl; [done|].
  by rewrite IH.
Qed.

(** The [delta] column of the working frame is the first difference of
    its metric column. *)
Lemma country_frame_delta d country :
  map delta (lines (country_frame d country))
  = diff (map total_cases (lines (country_frame d country))).
Proof.
  unfold country_frame. cbn [lines].
  rewrite total_cases_assign_delta. apply map_delta_assign.
  unfold diff. by rewrite length_diff_after, length_map.
Qed.

Lemma insert_by_date_sorted l ls :
  Sorted (fun a b => date_le (date a) (date b)) ls →
  Sorted (fun a b => date_le (date a) (date b)) (insert_by_date l ls).
Proof.
  induction ls as [|l' ls IH]; intros Hs; simpl.
  - by repeat constructor.
  - destruct (date_leb (date l) (date l')) eqn:E.
    + constructor; [done|]. constructor. by apply date_leb_le.
    + apply Sorted_inv in Hs as [Hs Hhd]. constructor; [by apply IH|].
      apply date_leb_false in E.
      destruct ls as [|l'' ls]; simpl; [by constructor|].
      destruct (date_leb (date l) (date l'')); constructor; [done|].
      by apply HdRel_inv in Hhd.
Qed.

Lemma sort_by_date_sorted ls :
  Sorted (fun a b => date_le (date a) (date b)) (sort_by_date ls).
Proof.
  induction ls as [|l ls IH]; simpl; [constructor|].
  by apply insert_by_date_sorted.
Qed.

(** The dates of the working frame ascend. *)
Lemma country_frame_dates_ascend d country :
  Sorted date_le (map date (lines (country_frame d country))).
Proof.
  unfold country_frame. cbn [lines]. rewrite date_assign_delta.
  pose proof (sort_by_date_sorted
    (List.filter (fun l => String.eqb (location l) country) (lines d))) as Hs.
  induction Hs as [|l ls Hs IH Hhd]; simpl; [constructor|].
  constructor; [done|]. destruct Hhd; simpl; by constructor.
Qed.

(** Where no value exceeds the one before it, no difference is positive. *)
Lemma diff_no_increase (s : list (option Z)) :
  (∀ i p v, s !! i = Some (Some p) → s !! S i = Some (Some v) → v ≤ p) →
  Forall (fun x => gt0 x = false) (diff s).
Proof.
  intros Hmono. apply Forall_lookup. intros i x Hx.
  destruct i as [|i].
  - destruct s as [|v s]; [done|]. rewrite diff_first in Hx. by injection Hx as <-.
  - assert (Hlen : (S i < length s)%nat).
    { apply lookup_lt_Some in Hx. unfold diff in Hx. by rewrite length_diff_after in Hx. }
    destruct (lookup_lt_is_Some_2 s i) as [p Hp]; [lia|].
    destruct (lookup_lt_is_Some_2 s (S i)) as [v Hv]; [lia|].
    rewrite (diff_lookup s i v p Hp Hv) in Hx. injection Hx as <-.
    destruct v as [v|], p as [p|]; simpl; try done.
    apply Z.ltb_ge. specialize (Hmono i p v Hp Hv). lia.
Qed.

(** A country whose values never rise from one date to the next gets its
    line trace and nothing else. *)
Lemma no_increase_no_marks d country :
  (∀ i p v,
     map total_cases (lines (country_frame d country)) !! i = Some (Some p) →
     map total_cases (lines (country_frame d country)) !! S i = Some (Some v) →
     v ≤ p) →
  country_traces d country = [line_trace (country_frame d country) country]
  ∧ country_annotations d country = [].
Proof.
  intros Hmono. apply diff_no_increase in Hmono.
  rewrite <- country_frame_delta in Hmono.
  assert (Hnone : increases_of (country_frame d country) = []).
  { unfold increases_of. induction (lines (country_frame d country)) as [|l ls IH];
      [done|].
    simpl in *. apply Forall_cons in Hmono as [-> Hmono]. by apply IH. }
  unfold country_traces, country_annotations, country_marks. cbv zeta.
  by rewrite Hnone.
Qed.

(** For a dataset as the loader leaves it, what the callback draws for one
    country: its line, and the marker with its annotation on the last row
    with a positive difference unless that row carries the label [0]. *)
Lemma dashboard_one_country rows country :
  lines (loaded rows) ≠ [] →
  ∃ fig,
    dashboard rows (Some [country]) = Ok fig
    ∧ data fig =
        line_trace (country_frame (loaded rows) country) country ::
        match last (increases_of (country_frame (loaded rows) country)) with
        | Some l =>
            if Nat.eqb (label l) 0 then []
            else [marker_trace (date l) (total_cases l)]
        | None => []
        end
    ∧ annotations fig =
        match last (increases_of (country_frame (loaded rows) country)) with
        | Some l =>
            if Nat.eqb (label l) 0 then []
            else [stopped_annotation (date l) (total_cases l) country]
        | None => []
        end.
Proof.
  intros Hne. unfold dashboard. rewrite load_run.
  destruct (update_chart_run 1 (loaded rows) (Some [country])
              (alloc (loaded rows) (alloc (Loader.read_csv rows) empty_heap)))
    as (h1 & -> & _); [apply lookup_alloc_new | simpl; lia |].
  destruct (render_contributions (loaded rows) [country] (or_introl Hne))
    as (fig & -> & Hdata & Hann).
  exists fig. split; [done|].
  rewrite Hdata, Hann. cbn [flat_map]. rewrite !app_nil_r.
  unfold country_traces, country_annotations.
  rewrite (country_marks_spec _ _ (NoDup_index_loaded rows)).
  destruct (last _) as [l|]; [|done]. by destruct (Nat.eqb (label l) 0).
Qed.

(** The values 10, 10, 15, 15, 12 in date order: the marker and the
    annotation sit on the third day, at 15. *)
Example plateau_anchor :
  ∃ fig line,
    dashboard plateau_rows (Some ["C"]) = Ok fig
    ∧ data fig = [line; marker_trace (march 3) (Some 15)]
    ∧ annotations fig = [stopped_annotation (march 3) (Some 15) "C"].
Proof. eexists _, _. vm_compute. done. Qed.

(** C1, the input on which the code departs from it.  The file lists the
    newer of a country's two rows first, so that row carries the label [0].
    Sorted by date the values are 10, 15, with the positive difference 5 on
    the row labelled [0]; line 99 reads that label as false, and the figure
    has the line trace only: no marker, no annotation. *)
Theorem last_increase_on_label_zero_unmarked :
  map total_cases (lines (country_frame (loaded newest_first_rows) "C"))
  = [Some 10; Some 15]
  ∧ map delta (lines (country_frame (loaded newest_first_rows) "C"))
    = [None; Some 5]
  ∧ map label (increases_of (country_frame (loaded newest_first_rows) "C"))
    = [0%nat]
  ∧ dashboard newest_first_rows (Some ["C"])
    = Ok {| data := [ {| x := [march 1; march 2]; y := [Some 10; Some 15];
                         mode := mode_lines; name := Some "C";
                         line_width := Some 2; marker := None;
                         showlegend := None |} ];
            annotations := [];
            layout := Some (chart_layout "Mar 01, 2020" "Mar 02, 2020") |}.
Proof. vm_compute. done. Qed.

(** The same two rows in date order are marked on the second day. *)
Example oldest_first_marked :
  ∃ fig line,
    dashboard (rev newest_first_rows) (Some ["C"]) = Ok fig
    ∧ data fig = [line; marker_trace (march 2) (Some 15)]
    ∧ annotations fig = [stopped_annotation (march 2) (Some 15) "C"].
Proof. eexists _, _. vm_compute. done. Qed.

(** ** Instances *)

Lemma download_if_needed_idempotent_witness :
  fs logged_world !! LOG_FILE = Some ("2024-01-05 - Downloaded" +:+ nl)
  ∧ contains today_label ("2024-01-05 - Downloaded" +:+ nl) = true
  ∧ download_if_needed today_label (Response 200 csv_body) logged_world
    = (logged_world, Ok tt)
  ∧ ∀ reply1 reply2 w0 w1,
      download_if_needed today_label reply1 w0 = (w1, Ok tt) →
      download_if_needed today_label reply2 w1 = (w1, Ok tt)
      ∧ (requests w1 ≤ S (requests w0))%nat.
Proof.
  assert (H1 : fs logged_world !! LOG_FILE = Some ("2024-01-05 - Downloaded" +:+ nl))
    by (vm_compute; reflexivity).
  assert (H2 : contains today_label ("2024-01-05 - Downloaded" +:+ nl) = true)
    by (vm_compute; reflexivity).
  exact (conj H1 (conj H2
    (download_if_needed_idempotent today_label (Response 200 csv_body)
       logged_world _ H1 H2))).
Defined.

(** A call that raises sends its request and writes nothing, so the next
    call asks the network again. *)
Lemma download_raises_inv today reply w w' e :
  download_if_needed today reply w = (w', Raise e) →
  fs w' = fs w ∧ requests w' = S (requests w) ∧ logged_today today w' = false.
Proof.
  unfold download_if_needed. destruct (logged_today today w) eqn:Hl; [done|].
  destruct reply as [|status_code content].
  - intros [= <- _]. done.
  - destruct (is_error_status status_code); [|done].
    intros [= <- _]. done.
Qed.

(** C8 as stated fails on the fast path: with today's entry in the ledger
    and no cache file, [download_if_needed] returns normally, the cache
    file does not exist, and reading it raises. *)
Lemma fast_path_without_cache_file :
  download_if_needed today_label (Response 200 csv_body) logged_world
  = (logged_world, Ok tt)
  ∧ exists_ (filepath today_label) logged_world = false
  ∧ open_for_read (filepath today_label) logged_world = Raise FileNotFoundError.
Proof. vm_compute. done. Qed.

Lemma download_ok_cache_file_witness :
  download_if_needed today_label (Response 200 csv_body)
    {| fs := ∅; requests := 0; stdout := [] |}
  = ({| fs := {[ filepath today_label := csv_body;
                 LOG_FILE := "2024-01-05 - Downloaded" +:+ nl ]};
        requests := 1;
        stdout := ["[INFO] Downloading COVID dataset..."] |}, Ok tt)
  ∧ ((logged_today today_label {| fs := ∅; requests := 0; stdout := [] |} = true
      ∧ fs {| fs := {[ filepath today_label := csv_body;
                       LOG_FILE := "2024-01-05 - Downloaded" +:+ nl ]};
              requests := 1;
              stdout := ["[INFO] Downloading COVID dataset..."] |}
        = fs {| fs := ∅; requests := 0; stdout := [] |})
     ∨ (logged_today today_label {| fs := ∅; requests := 0; stdout := [] |} = false
        ∧ ∃ status_code content,
            Response 200 csv_body = Response status_code content
            ∧ open_for_read (filepath today_label)
                {| fs := {[ filepath today_label := csv_body;
                            LOG_FILE := "2024-01-05 - Downloaded" +:+ nl ]};
                   requests := 1;
                   stdout := ["[INFO] Downloading COVID dataset..."] |}
              = Ok content)).
Proof.
  assert (H1 : download_if_needed today_label (Response 200 csv_body)
                 {| fs := ∅; requests := 0; stdout := [] |}
               = ({| fs := {[ filepath today_label := csv_body;
                              LOG_FILE := "2024-01-05 - Downloaded" +:+ nl ]};
                     requests := 1;
                     stdout := ["[INFO] Downloading COVID dataset..."] |}, Ok tt))
    by (vm_compute; reflexivity).
  exact (conj H1 (download_ok_cache_file _ _ _ _ H1)).
Defined.

Lemma two_countries_df :
  objs two_countries_heap !! 1%nat = Some (loaded two_countries_rows).
Proof. vm_compute. reflexivity. Defined.

Lemma two_countries_next : (1 < next_id two_countries_heap)%nat.
Proof. vm_compute. lia. Defined.

Lemma two_countries_rows_present : lines (loaded two_countries_rows) ≠ [].
Proof. vm_compute. discriminate. Defined.

Lemma atlantis_unknown :
  "Atlantis" ∉ map location (lines (loaded two_countries_rows)).
Proof.
  vm_compute. intros Hin.
  repeat (apply elem_of_cons in Hin as [Heq|Hin]; [discriminate Heq|]).
  by apply elem_of_nil in Hin.
Defined.

Lemma update_chart_leaves_df_unchanged_witness :
  objs two_countries_heap !! 1%nat = Some (loaded two_countries_rows)
  ∧ (1 < next_id two_countries_heap)%nat
  ∧ objs (update_chart 1 (Some ["B"; "A"]) two_countries_heap).1 !! 1%nat
    = Some (loaded two_countries_rows)
  ∧ ∀ fig country,
      let h' := (chart_country 1 fig country two_countries_heap).1 in
      objs h' !! 1%nat = Some (loaded two_countries_rows)
      ∧ S (next_id two_countries_heap) ≠ 1%nat
      ∧ ∃ c, objs h' !! S (next_id two_countries_heap) = Some c
             ∧ "delta" ∈ columns c.
Proof.
  exact (conj two_countries_df (conj two_countries_next
    (update_chart_leaves_df_unchanged 1 (loaded two_countries_rows)
       (Some ["B"; "A"]) two_countries_heap two_countries_df two_countries_next))).
Defined.

Lemma title_spans_whole_dataset_witness :
  objs two_countries_heap !! 1%nat = Some (loaded two_countries_rows)
  ∧ (1 < next_id two_countries_heap)%nat
  ∧ lines (loaded two_countries_rows) ≠ []
  ∧ ∃ fig lo dmin dmax gmin gmax,
      (update_chart 1 (Some ["B"]) two_countries_heap).2 = Ok fig
      ∧ layout fig = Some lo
      ∧ earliest_of (map date (lines (loaded two_countries_rows))) dmin
      ∧ latest_of (map date (lines (loaded two_countries_rows))) dmax
      ∧ strftime (Some dmin) = Ok gmin
      ∧ strftime (Some dmax) = Ok gmax
      ∧ title lo = "Total COVID-19 Cases (" +:+ gmin +:+ " – " +:+ gmax +:+ ")"
      ∧ ∀ country' rest',
          ∃ fig', (update_chart 1 (Some (country' :: rest')) two_countries_heap).2
                  = Ok fig'
                  ∧ layout fig' = Some lo.
Proof.
  exact (conj two_countries_df (conj two_countries_next (conj two_countries_rows_present
    (title_spans_whole_dataset 1 (loaded two_countries_rows) "B" [] two_countries_heap
       two_countries_df two_countries_next two_countries_rows_present)))).
Defined.

(** Selecting only B, whose rows are all in February, gives the title of
    the whole dataset, January to March. *)
Example short_history_title :
  ∃ fig lo,
    dashboard two_countries_rows (Some ["B"]) = Ok fig
    ∧ layout fig = Some lo
    ∧ title lo = "Total COVID-19 Cases (Jan 01, 2020 – Mar 05, 2020)"
    ∧ x <$> head (data fig) = Some [february 10; february 12].
Proof. eexists _, _. vm_compute. done. Qed.

Lemma line_traces_in_selection_order_witness :
  objs two_countries_heap !! 1%nat = Some (loaded two_countries_rows)
  ∧ (1 < next_id two_countries_heap)%nat
  ∧ (lines (loaded two_countries_rows) ≠ [] ∨ ["B"; "A"] = @nil string)
  ∧ ∃ fig, (update_chart 1 (Some ["B"; "A"]) two_countries_heap).2 = Ok fig
           ∧ map name (List.filter is_line_trace (data fig))
             = map Some ["B"; "A"].
Proof.
  exact (conj two_countries_df (conj two_countries_next
    (conj (or_introl two_countries_rows_present)
    (line_traces_in_selection_order 1 (loaded two_countries_rows) ["B"; "A"]
       two_countries_heap two_countries_df two_countries_next
       (or_introl two_countries_rows_present))))).
Defined.

(** C7 as stated fails: a name that is no location of the dataset does get
    a trace, an empty one that carries the name. *)
Lemma unknown_country_has_trace :
  ("Atlantis" ∉ map location (lines (loaded two_countries_rows)))
  ∧ dashboard two_countries_rows (Some ["Atlantis"])
    = Ok {| data := [empty_line_trace "Atlantis"];
            annotations := [];
            layout := Some (chart_layout "Jan 01, 2020" "Mar 05, 2020") |}
  ∧ name (empty_line_trace "Atlantis") = Some "Atlantis".
Proof. split; [apply atlantis_unknown|]. vm_compute. done. Qed.

Lemma unknown_country_adds_empty_trace_witness :
  objs two_countries_heap !! 1%nat = Some (loaded two_countries_rows)
  ∧ (1 < next_id two_countries_heap)%nat
  ∧ lines (loaded two_countries_rows) ≠ []
  ∧ ("Atlantis" ∉ map location (lines (loaded two_countries_rows)))
  ∧ ∃ fig fig_pre fig_post,
      (update_chart 1 (Some (["B"] ++ "Atlantis" :: ["A"])) two_countries_heap).2
      = Ok fig
      ∧ (update_chart 1 (Some ["B"]) two_countries_heap).2 = Ok fig_pre
      ∧ (update_chart 1 (Some ["A"]) two_countries_heap).2 = Ok fig_post
      ∧ data fig = data fig_pre ++ [empty_line_trace "Atlantis"] ++ data fig_post
      ∧ annotations fig = annotations fig_pre ++ annotations fig_post.
Proof.
  exact (conj two_countries_df (conj two_countries_next (conj two_countries_rows_present
    (conj atlantis_unknown
    (unknown_country_adds_empty_trace 1 (loaded two_countries_rows) ["B"] ["A"]
       "Atlantis" two_countries_heap two_countries_df two_countries_next
       two_countries_rows_present atlantis_unknown))))).
Defined.

(** * Further properties of the fetcher *)

Lemma append_String (a : Ascii.ascii) (s t : string) :
  String a s +:+ t = String a (s +:+ t).
Proof. reflexivity. Qed.

Lemma prefix_iff (needle hay : string) :
  String.prefix needle hay = true ↔ ∃ post, hay = needle +:+ post.
Proof.
  revert hay. induction needle as [|a needle IH]; intros hay.
  - split; [intros _; by exists hay | by destruct hay].
  - destruct hay as [|b hay]; simpl.
    + split; [done | intros [post Hp]; rewrite append_String in Hp; discriminate].
    + setoid_rewrite append_String.
      destruct (Ascii.ascii_dec a b) as [->|Hne].
      * rewrite IH. split; intros [post Hp]; exists post; congruence.
      * split; [done | intros [post Hp]; congruence].
Qed.

(** Python's [in] on strings: the needle occurs somewhere in the text. *)
Lemma contains_iff (needle hay : string) :
  contains needle hay = true ↔ ∃ pre post, hay = pre +:+ needle +:+ post.
Proof.
  induction hay as [|b hay IH]; cbn [contains]; rewrite orb_true_iff, prefix_iff.
  - split.
    + intros [[post Hp]|?]; [|done]. by exists EmptyString, post.
    + intros (pre & post & Hp). left.
      destruct pre; [by exists post | rewrite append_String in Hp; discriminate].
  - rewrite IH. split.
    + intros [[post Hp]|(pre & post & Hp)].
      * by exists EmptyString, post.
      * exists (String b pre), post. rewrite append_String. by rewrite Hp.
    + intros (pre & post & Hp). destruct pre as [|c pre].
      * left. by exists post.
      * right. exists pre, post. rewrite append_String in Hp. congruence.
Qed.

Lemma length_append (s t : string) :
  String.length (s +:+ t) = (String.length s + String.length t)%nat.
Proof.
  induction s as [|a s IH]; [done|].
  rewrite append_String. simpl. by rewrite IH.
Qed.

Lemma append_inv_tail (s1 s2 t : string) : s1 +:+ t = s2 +:+ t → s1 = s2.
Proof.
  revert s2. induction s1 as [|a s1 IH]; intros [|b s2] Heq.
  - done.
  - apply (f_equal String.length) in Heq.
    rewrite !length_append in Heq. simpl in Heq. lia.
  - apply (f_equal String.length) in Heq.
    rewrite !length_append in Heq. simpl in Heq. lia.
  - rewrite !append_String in Heq. injection Heq as -> Heq. f_equal. by apply IH.
Qed.

(** Different days have different cache files. *)
Lemma filepath_inj today today' : filepath today = filepath today' → today = today'.
Proof.
  unfold filepath, filename, DATA_FOLDER. intros Heq.
  apply String.app_inj in Heq. apply String.app_inj in Heq.
  apply String.app_inj in Heq. by apply append_inv_tail in Heq.
Qed.

(** The only files a call can touch are today's cache file and the
    ledger. *)
Lemma download_keeps_other_paths today reply w path :
  path ≠ filepath today → path ≠ LOG_FILE →
  fs (download_if_needed today reply w).1 !! path = fs w !! path.
Proof.
  intros Hc Hl. unfold download_if_needed.
  destruct (logged_today today w); [done|].
  destruct reply as [|status_code content]; [done|].
  destruct (is_error_status status_code); [done|].
  unfold append_file, write_file. simpl.
  rewrite lookup_insert_ne by done. by rewrite lookup_insert_ne.
Qed.

(** X1. A call that raises has sent one request and has written nothing:
    the file system is as before, so neither a cache file nor a ledger line
    was left behind.  It raises [ConnectionError] when the request itself
    fails and [HTTPError] on a status from 400 to 599, and only when
    today's label is not in the ledger. *)
Theorem download_raises_only_on_failed_request today reply w w' e :
  download_if_needed today reply w = (w', Raise e) →
  fs w' = fs w
  ∧ requests w' = S (requests w)
  ∧ logged_today today w = false
  ∧ ((e = ConnectionError ∧ reply = NoReply)
     ∨ (e = HTTPError ∧ ∃ status_code content,
          reply = Response status_code content ∧ 400 ≤ status_code < 600)).
Proof.
  unfold download_if_needed. destruct (logged_today today w) eqn:Hl; [done|].
  destruct reply as [|status_code content].
  - intros [= <- <-]. repeat split; try done. by left.
  - destruct (is_error_status status_code) eqn:Hs; [|done].
    intros [= <- <-]. repeat split; try done. right. split; [done|].
    exists status_code, content. split; [done|].
    unfold is_error_status in Hs. apply andb_true_iff in Hs as [H1 H2].
    apply Z.leb_le in H1. apply Z.ltb_lt in H2. lia.
Qed.

(** X2. Whatever a call does, it leaves the cache file of every other day
    as it was: present with the same contents, or absent. *)
Theorem download_keeps_other_days today today' reply w :
  today' ≠ today →
  fs (download_if_needed today reply w).1 !! filepath today'
  = fs w !! filepath today'.
Proof.
  intros Hne. apply download_keeps_other_paths.
  - intros Heq. by apply filepath_inj in Heq.
  - apply filepath_not_ledger.
Qed.

(** X3. The ledger only grows: after any call its text is the text from
    before (empty when there was no file), followed by nothing or by the one
    line for today; the line is added exactly when the call returns normally
    after a download. *)
Theorem download_ledger_append_only today reply w :
  let w' := (download_if_needed today reply w).1 in
  let before := default EmptyString (fs w !! LOG_FILE) in
  (fs w' !! LOG_FILE = fs w !! LOG_FILE
   ∧ (logged_today today w = true ∨ ∃ e, (download_if_needed today reply w).2 = Raise e))
  ∨ (fs w' !! LOG_FILE = Some (before +:+ today +:+ " - Downloaded" +:+ nl)
     ∧ logged_today today w = false
     ∧ (download_if_needed today reply w).2 = Ok tt).
Proof.
  cbv zeta. unfold download_if_needed.
  destruct (logged_today today w) eqn:Hl; [left; split; [done | by left]|].
  destruct reply as [|status_code content]; [left; split; [done | right; by eexists]|].
  destruct (is_error_status status_code); [left; split; [done | right; by eexists]|].
  right. split; [|done]. unfold append_file, write_file. simpl.
  rewrite lookup_insert_eq.
  rewrite lookup_insert_ne by (intros Heq; by apply (filepath_not_ledger today)).
  done.
Qed.

(** X4. A call sends no request exactly when the ledger file exists and
    today's label occurs somewhere in its text, wherever and next to
    whatever; otherwise it sends exactly one. *)
Theorem download_skipped_iff_label_in_ledger today reply w :
  (requests (download_if_needed today reply w).1 = requests w
   ↔ ∃ pre post, fs w !! LOG_FILE = Some (pre +:+ today +:+ post))
  ∧ (requests (download_if_needed today reply w).1 = requests w
     ∨ requests (download_if_needed today reply w).1 = S (requests w)).
Proof.
  assert (Hiff : logged_today today w = true
                 ↔ ∃ pre post, fs w !! LOG_FILE = Some (pre +:+ today +:+ post)).
  { unfold logged_today. destruct (fs w !! LOG_FILE) as [log|].
    - rewrite contains_iff. split; intros (pre & post & Hp); exists pre, post; congruence.
    - split; [done | by intros (? & ? & ?)]. }
  rewrite <- Hiff. unfold download_if_needed.
  destruct (logged_today today w); [split; [done | by left]|].
  assert (∀ n : nat, S n = n ↔ false = true) as Hn by (intros n; split; [lia | done]).
  destruct reply as [|status_code content]; simpl; [split; [apply Hn | by right]|].
  destruct (is_error_status status_code); simpl; (split; [apply Hn | by right]).
Qed.

(** * Further properties of the loader and of the country list *)

Lemma elem_of_filter_bool {A} (p : A → bool) (l : list A) a :
  a ∈ List.filter p l ↔ a ∈ l ∧ p a = true.
Proof. rewrite !list_elem_of_In. apply List.filter_In. Qed.

Lemma StronglySorted_seq_lt len : ∀ n, StronglySorted lt (seq n len).
Proof.
  induction len as [|len IH]; intros n; simpl; constructor; [apply IH|].
  apply Forall_seq. intros i Hi. lia.
Qed.

Lemma StronglySorted_label_filter (p : Line → bool) ls :
  StronglySorted lt (map label ls) →
  StronglySorted lt (map label (List.filter p ls)).
Proof.
  induction ls as [|l ls IH]; simpl; [done|].
  intros Hs. apply StronglySorted_inv in Hs as [Hs Hall].
  destruct (p l); [|by apply IH].
  simpl. constructor; [by apply IH|].
  apply Forall_forall. intros n Hn.
  apply list_elem_of_fmap in Hn as (l' & -> & Hin).
  apply elem_of_filter_bool in Hin as [Hin _].
  rewrite Forall_forall in Hall. apply Hall.
  apply list_elem_of_fmap. by exists l'.
Qed.

Lemma index_read_csv rows : map label (lines (Loader.read_csv rows)) = seq 0 (length rows).
Proof.
  unfold Loader.read_csv. cbn [lines].
  pose proof (index_read_csv_from rows 0) as Hseq. cbn [Nat.add] in Hseq. exact Hseq.
Qed.

Lemma elem_of_read_csv rows l :
  l ∈ lines (Loader.read_csv rows) ↔
  ∃ r, rows !! label l = Some r
       ∧ l = mkLine (label l) (Loader.csv_location r) (Loader.csv_date r)
               (Loader.csv_total_cases r) None.
Proof.
  unfold Loader.read_csv. cbn [lines]. rewrite elem_of_lookup_imap. split.
  - intros (i & r & -> & Hr). by exists r.
  - intros (r & Hr & Hl). by exists (label l), r.
Qed.


(** ** [unique] and [sorted] *)

Lemma elem_of_unique (s : list string) v : v ∈ unique s ↔ v ∈ s.
Proof.
  induction s as [|u s IH]; simpl; [done|].
  rewrite !elem_of_cons, elem_of_filter_bool, IH.
  destruct (String.eqb_spec v u) as [->|Hne]; simpl; [tauto|].
  split; [tauto|]. intros [?|?]; [tauto|]. right. done.
Qed.

Lemma NoDup_filter_bool {A} (p : A → bool) (l : list A) :
  NoDup l → NoDup (List.filter p l).
Proof.
  induction 1 as [|a l Hnot Hnd IH]; simpl; [constructor|].
  destruct (p a); [|done]. constructor; [|done].
  rewrite elem_of_filter_bool. tauto.
Qed.

Lemma NoDup_unique (s : list string) : NoDup (unique s).
Proof.
  induction s as [|v s IH]; simpl; constructor.
  - rewrite elem_of_filter_bool, String.eqb_refl. simpl. by intros [_ ?].
  - by apply NoDup_filter_bool.
Qed.

Lemma insert_sorted_perm v s : insert_sorted v s ≡ₚ v :: s.
Proof.
  induction s as [|u s IH]; simpl; [done|].
  destruct (String.leb v u); [done|]. rewrite IH. apply Permutation_swap.
Qed.

Lemma sorted_perm s : sorted s ≡ₚ s.
Proof.
  induction s as [|v s IH]; simpl; [done|]. by rewrite insert_sorted_perm, IH.
Qed.

Lemma insert_sorted_Sorted v s :
  Sorted (fun a b => String.leb a b = true) s →
  Sorted (fun a b => String.leb a b = true) (insert_sorted v s).
Proof.
  induction s as [|u s IH]; intros Hs; simpl.
  - by repeat constructor.
  - destruct (String.leb v u) eqn:E.
    + constructor; [done|]. by constructor.
    + apply Sorted_inv in Hs as [Hs Hhd]. constructor; [by apply IH|].
      assert (Huv : String.leb u v = true).
      { destruct (String.leb_total u v) as [?|Hvu]; [done | congruence]. }
      destruct s as [|u' s]; simpl; [by constructor|].
      destruct (String.leb v u'); constructor; [done|].
      by apply HdRel_inv in Hhd.
Qed.

Lemma sorted_Sorted s : Sorted (fun a b => String.leb a b = true) (sorted s).
Proof.
  induction s as [|v s IH]; simpl; [constructor|]. by apply insert_sorted_Sorted.
Qed.

Lemma leb_ne_ltb (a b : string) :
  String.leb a b = true → a ≠ b → String.ltb a b = true.
Proof.
  unfold String.leb, String.ltb. intros Hle Hne.
  destruct (String.compare a b) eqn:E; try done.
  apply String.compare_eq_iff in E. done.
Qed.

Lemma Sorted_leb_NoDup_ltb s :
  Sorted (fun a b => String.leb a b = true) s → NoDup s →
  Sorted (fun a b => String.ltb a b = true) s.
Proof.
  induction 1 as [|a s Hs IH Hhd]; intros Hnd; [constructor|].
  apply NoDup_cons in Hnd as [Hnot Hnd]. constructor; [by apply IH|].
  destruct Hhd as [|b s Hab]; constructor.
  apply leb_ne_ltb; [done|]. intros ->. apply Hnot. by left.
Qed.

Lemma country_names_elem_of d c :
  c ∈ country_names d ↔ c ∈ map location (lines d).
Proof. unfold country_names. by rewrite sorted_perm, elem_of_unique. Qed.

Lemma countries_run df d h :
  objs h !! df = Some d → countries df h = (h, Ok (country_names d)).
Proof. intros Hdf. unfold countries, bind. by rewrite (deref_run _ _ _ Hdf). Qed.

(** X6. The country list is in strictly ascending order of Python's string
    comparison, and holds no name twice. *)
Theorem countries_ascending_distinct df d h :
  objs h !! df = Some d →
  ∃ cs, countries df h = (h, Ok cs)
        ∧ Sorted (fun a b => String.ltb a b = true) cs
        ∧ NoDup cs.
Proof.
  intros Hdf. exists (country_names d). split; [by apply countries_run|].
  assert (Hnd : NoDup (country_names d)).
  { unfold country_names. rewrite sorted_perm. apply NoDup_unique. }
  split; [|done]. apply Sorted_leb_NoDup_ltb; [apply sorted_Sorted | done].
Qed.

(** X7. The country list holds exactly the locations that have at least
    one row with a value in the metric column: a location all of whose rows
    lack the value is not offered. *)
Theorem countries_are_locations_with_values (rows : list Loader.CsvRow) :
  ∃ h df cs,
    Loader.load rows empty_heap = (h, Ok df)
    ∧ countries df h = (h, Ok cs)
    ∧ ∀ c, c ∈ cs ↔
           ∃ r, r ∈ rows ∧ Loader.csv_location r = c
                ∧ Loader.csv_total_cases r ≠ None.
Proof.
  eexists _, _, _. split; [apply load_run|].
  split; [apply countries_run, lookup_alloc_new|].
  intros c. rewrite country_names_elem_of. unfold loaded. cbn [lines].
  rewrite list_elem_of_fmap. split.
  - intros (l & -> & Hin). apply elem_of_filter_bool in Hin as [Hin Hn].
    apply elem_of_read_csv in Hin as (r & Hr & Hl).
    exists r. split; [by eapply list_elem_of_lookup_2|].
    rewrite Hl in Hn |- *. simpl in *. split; [done|].
    by destruct (Loader.csv_total_cases r).
  - intros (r & Hin & <- & Hsome).
    apply list_elem_of_lookup in Hin as [i Hi].
    exists (mkLine i (Loader.csv_location r) (Loader.csv_date r)
              (Loader.csv_total_cases r) None).
    split; [done|]. apply elem_of_filter_bool. split.
    + apply elem_of_read_csv. by exists r.
    + simpl. by destruct (Loader.csv_total_cases r).
Qed.

(** * Further properties of the callback *)

(** X8. With no row behind [df], as after loading a file none of whose
    rows has a value, every non-empty selection makes the callback raise
    [ValueError] at line 81, before anything is allocated. *)
Theorem update_chart_raises_without_rows df d country rest h :
  objs h !! df = Some d →
  lines d = [] →
  update_chart df (Some (country :: rest)) h = (h, Raise ValueError).
Proof.
  intros Hdf Hd. unfold update_chart, bind, lift. cbn [truthy_selection negb].
  rewrite (deref_run _ _ _ Hdf), Hd. done.
Qed.

Lemma country_marks_shape d country :
  country_marks d country = ([], [])
  ∨ ∃ l, l ∈ lines (country_frame d country)
         ∧ country_marks d country
           = ([marker_trace (date l) (total_cases l)],
              [stopped_annotation (date l) (total_cases l) country]).
Proof.
  unfold country_marks. cbv zeta.
  destruct (truthy_index _); [|by left].
  unfold loc_line.
  destruct (List.find _ _) as [l|] eqn:Hfind; [|by left].
  right. exists l. split; [|done].
  apply List.find_some in Hfind as [Hin _]. by apply list_elem_of_In.
Qed.

Lemma markers_country_traces d cs :
  map (fun t => (x t, y t))
    (List.filter is_marker_trace (flat_map (country_traces d) cs))
  = map (fun a => ([ann_x a], [ann_y a])) (flat_map (country_annotations d) cs).
Proof.
  induction cs as [|country rest IH]; [done|].
  cbn [flat_map]. rewrite List.filter_app, !map_app, IH. f_equal.
  unfold country_traces, country_annotations.
  cbn [List.filter is_marker_trace line_trace mode].
  by destruct (country_marks_shape d country) as [->|(l & _ & ->)].
Qed.

Lemma annotations_country_traces d cs :
  Forall (fun a => ∃ c, c ∈ cs ∧ text a = "Reporting stopped for " +:+ c)
    (flat_map (country_annotations d) cs)
  ∧ (length (flat_map (country_annotations d) cs) ≤ length cs)%nat.
Proof.
  induction cs as [|country rest [IH1 IH2]]; [split; [constructor | done]|].
  cbn [flat_map]. rewrite Forall_app, length_app. unfold country_annotations at 1 3.
  assert (Hrest : Forall (fun a => ∃ c, c ∈ country :: rest
                                    ∧ text a = "Reporting stopped for " +:+ c)
                    (flat_map (country_annotations d) rest)).
  { eapply Forall_impl; [exact IH1|]. intros a (c & Hc & Ht). exists c. split; [by right | done]. }
  destruct (country_marks_shape d country) as [->|(l & _ & ->)]; simpl.
  - split; [split; [constructor | done] | lia].
  - split; [|lia]. split; [|done].
    constructor; [|constructor]. exists country. split; [by left | done].
Qed.

(** X9. In the figure of a dataset with at least one row there are as many
    annotations as marker traces, at most one per selected country; the
    n-th annotation is anchored at the point of the n-th marker, and its
    text is "Reporting stopped for " followed by a selected name. *)
Theorem annotations_follow_markers df d (cs : list string) h :
  objs h !! df = Some d →
  (df < next_id h)%nat →
  lines d ≠ [] →
  ∃ fig,
    (update_chart df (Some cs) h).2 = Ok fig
    ∧ map (fun a => ([ann_x a], [ann_y a])) (annotations fig)
      = map (fun t => (x t, y t)) (List.filter is_marker_trace (data fig))
    ∧ Forall (fun a => ∃ c, c ∈ cs ∧ text a = "Reporting stopped for " +:+ c)
        (annotations fig)
    ∧ (length (annotations fig) ≤ length cs)%nat.
Proof.
  intros Hdf Hlt Hne.
  destruct (update_chart_run df d (Some cs) h Hdf Hlt) as (h1 & -> & _).
  destruct (render_contributions d cs (or_introl Hne)) as (fig & Hr & Hdata & Hann).
  exists fig. split; [done|]. rewrite Hdata, Hann.
  split; [by rewrite markers_country_traces|]. apply annotations_country_traces.
Qed.

Lemma lines_country_traces d cs :
  List.filter is_line_trace (flat_map (country_traces d) cs)
  = map (fun c => line_trace (country_frame d c) c) cs.
Proof.
  induction cs as [|country rest IH]; [done|].
  cbn [flat_map]. rewrite List.filter_app, IH.
  unfold country_traces at 1. cbn [List.filter is_line_trace line_trace mode].
  by rewrite country_marks_no_line.
Qed.

Lemma points_assign_delta vals ls :
  map (fun l => (date l, total_cases l)) (assign_delta vals ls)
  = map (fun l => (date l, total_cases l)) ls.
Proof.
  revert vals. induction ls as [|l ls IH]; intros vals; simpl; [done|]. by rewrite IH.
Qed.

Lemma combine_map {A B C} (f : A → B) (g : A → C) (l : list A) :
  combine (map f l) (map g l) = map (fun a => (f a, g a)) l.
Proof. induction l as [|a l IH]; simpl; [done | by rewrite IH]. Qed.

Lemma points_line_trace d country :
  points (line_trace (country_frame d country) country)
  ≡ₚ map (fun l => (date l, total_cases l))
       (List.filter (fun l => String.eqb (location l) country) (lines d)).
Proof.
  unfold points, line_trace. cbn [x y]. rewrite combine_map.
  unfold country_frame. cbn [lines]. rewrite points_assign_delta.
  apply fmap_Permutation, sort_by_date_perm.
Qed.

(** X10. Each line trace holds the rows of its country and nothing else:
    one point (date, value) per row that [df] has for that location, with
    the dates in ascending order. *)
Theorem line_trace_holds_country_rows df d (cs : list string) h :
  objs h !! df = Some d →
  (df < next_id h)%nat →
  lines d ≠ [] →
  ∃ fig,
    (update_chart df (Some cs) h).2 = Ok fig
    ∧ Forall2
        (fun t c =>
           name t = Some c
           ∧ length (x t) = length (y t)
           ∧ Sorted date_le (x t)
           ∧ points t ≡ₚ
               map (fun l => (date l, total_cases l))
                 (List.filter (fun l => String.eqb (location l) c) (lines d)))
        (List.filter is_line_trace (data fig)) cs.
Proof.
  intros Hdf Hlt Hne.
  destruct (update_chart_run df d (Some cs) h Hdf Hlt) as (h1 & -> & _).
  destruct (render_contributions d cs (or_introl Hne)) as (fig & Hr & Hdata & _).
  exists fig. split; [done|]. rewrite Hdata, lines_country_traces.
  apply Forall2_fmap_l, Forall_Forall2_diag, Forall_forall. intros c _.
  split; [done|]. split; [|split].
  - unfold line_trace. cbn [x y]. by rewrite !length_map.
  - apply country_frame_dates_ascend.
  - apply points_line_trace.
Qed.

(** X11. Over a dataset with at least one row the figure of a selection
    put together from two lists has the traces of the first list's figure
    followed by those of the second's, and likewise the annotations; a name
    selected twice is drawn twice. *)
Theorem update_chart_concatenates df d (cs1 cs2 : list string) h :
  objs h !! df = Some d →
  (df < next_id h)%nat →
  lines d ≠ [] →
  ∃ fig fig1 fig2,
    (update_chart df (Some (cs1 ++ cs2)) h).2 = Ok fig
    ∧ (update_chart df (Some cs1) h).2 = Ok fig1
    ∧ (update_chart df (Some cs2) h).2 = Ok fig2
    ∧ data fig = data fig1 ++ data fig2
    ∧ annotations fig = annotations fig1 ++ annotations fig2.
Proof.
  intros Hdf Hlt Hne.
  destruct (update_chart_run df d (Some (cs1 ++ cs2)) h Hdf Hlt) as (h1 & -> & _).
  destruct (update_chart_run df d (Some cs1) h Hdf Hlt) as (h2 & -> & _).
  destruct (update_chart_run df d (Some cs2) h Hdf Hlt) as (h3 & -> & _).
  destruct (render_contributions d (cs1 ++ cs2) (or_introl Hne)) as (fig & -> & Hd & Ha).
  destruct (render_contributions d cs1 (or_introl Hne)) as (fig1 & -> & Hd1 & Ha1).
  destruct (render_contributions d cs2 (or_introl Hne)) as (fig2 & -> & Hd2 & Ha2).
  exists fig, fig1, fig2. do 3 (split; [done|]).
  rewrite Hd, Ha, Hd1, Ha1, Hd2, Ha2. by rewrite !List.flat_map_app.
Qed.

(** X12. The callback has no memory: after any sequence of earlier
    selections it returns for a selection what it returns for it at once. *)
Theorem update_chart_independent_of_history df d events selected_countries h :
  objs h !! df = Some d →
  (df < next_id h)%nat →
  (update_chart df selected_countries (serve df events h)).2
  = (update_chart df selected_countries h).2.
Proof.
  intros Hdf Hlt.
  destruct (serve_preserves df d events h Hdf Hlt) as [Hdf' Hlt'].
  destruct (update_chart_run df d selected_countries _ Hdf' Hlt') as (h1 & -> & _).
  destruct (update_chart_run df d selected_countries h Hdf Hlt) as (h2 & -> & _).
  done.
Qed.

Lemma filter_nil_all_false {A} (p : A → bool) (l : list A) a :
  List.filter p l = [] → a ∈ l → p a = false.
Proof.
  intros Hnil Hin. destruct (p a) eqn:E; [|done].
  assert (Hf : a ∈ List.filter p l) by (by apply elem_of_filter_bool).
  rewrite Hnil in Hf. by apply elem_of_nil in Hf.
Qed.

(** The last element of a filtered list sits at a position after which
    nothing passes the filter. *)
Lemma last_filter_lookup {A} (p : A → bool) (l : list A) a :
  last (List.filter p l) = Some a →
  ∃ j, l !! j = Some a ∧ p a = true
       ∧ ∀ k b, (j < k)%nat → l !! k = Some b → p b = false.
Proof.
  induction l as [|a0 l IH]; [done|]. simpl.
  destruct (List.filter p l) as [|b0 bs] eqn:Hf.
  - destruct (p a0) eqn:Hp; [|done]. simpl. intros [= <-].
    exists 0%nat. split; [done|]. split; [done|].
    intros k b Hk Hb. destruct k as [|k]; [lia|]. simpl in Hb.
    eapply filter_nil_all_false; [exact Hf|]. by eapply list_elem_of_lookup_2.
  - intros Hlast.
    assert (Hl : last (b0 :: bs) = Some a).
    { destruct (p a0); [by rewrite last_cons_cons in Hlast | done]. }
    destruct (IH Hl) as (j & Hj & Hp & Hafter).
    exists (S j). split; [done|]. split; [done|].
    intros k b Hk Hb. destruct k as [|k]; [lia|]. simpl in Hb.
    apply (Hafter k b); [lia | done].
Qed.

Lemma delta_lookup_country_frame d country k l :
  lines (country_frame d country) !! k = Some l →
  diff (map total_cases (lines (country_frame d country))) !! k = Some (delta l).
Proof.
  intros Hk. rewrite <- country_frame_delta.
  change (map delta ?ls) with (delta <$> ls). by rewrite list_lookup_fmap, Hk.
Qed.

Lemma dashboard_render rows selected_countries :
  dashboard rows selected_countries = render (loaded rows) selected_countries.
Proof.
  unfold dashboard. rewrite load_run.
  destruct (update_chart_run 1 (loaded rows) selected_countries
              (alloc (loaded rows) (alloc (Loader.read_csv rows) empty_heap)))
    as (h1 & -> & _); [apply lookup_alloc_new | simpl; lia | done].
Qed.


Lemma country_frame_known d country :
  country ∈ map location (lines d) → lines (country_frame d country) ≠ [].
Proof.
  intros Hin Hnil. apply list_elem_of_fmap in Hin as (l & -> & Hin).
  assert (Hf : l ∈ List.filter (fun l' => String.eqb (location l') (location l)) (lines d)).
  { apply elem_of_filter_bool. split; [done | apply String.eqb_refl]. }
  apply (f_equal (map label)) in Hnil. unfold country_frame in Hnil. cbn [lines] in Hnil.
  rewrite (label_assign_delta _ _ _ eq_refl) in Hnil.
  apply fmap_nil_inv in Hnil.
  rewrite <- sort_by_date_perm, Hnil in Hf. by apply elem_of_nil in Hf.
Qed.

(** X14. Every entry the drop-down offers has its label as its value, and
    selecting it alone draws a line trace under that name with at least one
    point: no offered country is without data. *)
Theorem dropdown_option_has_points df d o h :
  objs h !! df = Some d →
  (df < next_id h)%nat →
  o ∈ options (country_selector (country_names d)) →
  option_label o = option_value o
  ∧ ∃ fig line,
      (update_chart df (Some [option_value o]) h).2 = Ok fig
      ∧ head (data fig) = Some line
      ∧ name line = Some (option_label o)
      ∧ mode line = mode_lines
      ∧ x line ≠ [].
Proof.
  intros Hdf Hlt Ho. unfold country_selector in Ho. cbn [options] in Ho.
  apply list_elem_of_fmap in Ho as (c & -> & Hc). cbn [option_label option_value].
  split; [done|].
  apply country_names_elem_of in Hc.
  assert (Hne : lines d ≠ []).
  { intros Hnil. rewrite Hnil in Hc. by apply elem_of_nil in Hc. }
  destruct (update_chart_run df d (Some [c]) h Hdf Hlt) as (h1 & -> & _).
  destruct (render_contributions d [c] (or_introl Hne)) as (fig & Hr & Hdata & _).
  exists fig, (line_trace (country_frame d c) c). split; [done|].
  rewrite Hdata. cbn [flat_map]. unfold country_traces at 1.
  split; [done|]. split; [done|]. split; [done|].
  cbn [line_trace x]. intros Hnil. apply fmap_nil_inv in Hnil.
  by apply (country_frame_known d c Hc).
Qed.

(** ** The heap across a call *)

Lemma chart_country_keeps df d fig country h :
  objs h !! df = Some d →
  (df < next_id h)%nat →
  (next_id h ≤ next_id (chart_country df fig country h).1)%nat
  ∧ ∀ r, (r < next_id h)%nat →
         objs (chart_country df fig country h).1 !! r = objs h !! r.
Proof.
  intros Hdf Hlt.
  unfold chart_country, bind.
  rewrite (deref_run _ _ _ Hdf).
  rewrite (getitem_mask_run _ _ _ _ Hdf).
  set (h1 := alloc _ h).
  rewrite (sort_values_date_run _ _ h1 (lookup_alloc_new _ h)).
  cbn [columns lines].
  set (h2 := alloc _ h1).
  pose proof (lookup_alloc_new _ h1 : objs h2 !! next_id h1 = Some _) as H2.
  rewrite (deref_run _ _ _ H2), (setitem_delta_run _ _ _ _ H2).
  cbn [columns lines].
  set (h3 := store _ _ h2).
  assert (H3 : objs h3 !! next_id h1 = Some (country_frame d country))
    by apply lookup_store_eq.
  rewrite (deref_run _ _ _ H3).
  unfold lift. rewrite getitem_delta_country_frame, map_map.
  rewrite (getitem_mask_run _ _ (fun l => gt0 (delta l)) _ H3).
  set (h4 := alloc _ h3).
  rewrite (deref_run _ _ h4 (lookup_alloc_new _ h3)).
  assert (H4 : objs h4 !! next_id h1 = Some (country_frame d country)).
  { unfold h4. rewrite lookup_alloc_old; [done | simpl; lia]. }
  assert (Hold : ∀ r, (r < next_id h)%nat → objs h4 !! r = objs h !! r).
  { intros r Hr. unfold h4. rewrite lookup_alloc_old by (simpl; lia).
    unfold h3. rewrite lookup_store_ne by (simpl; lia).
    unfold h2. rewrite lookup_alloc_old by (simpl; lia).
    unfold h1. by rewrite lookup_alloc_old. }
  assert (Hnext : (next_id h ≤ next_id h4)%nat) by (simpl; lia).
  destruct (truthy_index _).
  - rewrite (deref_run _ _ _ H4). by destruct (loc_line _ _).
  - done.
Qed.

Lemma for_countries_keeps df d cs : ∀ fig h,
  objs h !! df = Some d →
  (df < next_id h)%nat →
  (next_id h ≤ next_id (for_countries df fig cs h).1)%nat
  ∧ ∀ r, (r < next_id h)%nat →
         objs (for_countries df fig cs h).1 !! r = objs h !! r.
Proof.
  induction cs as [|country rest IH]; intros fig h Hdf Hlt; simpl; [done|].
  destruct (chart_country_keeps df d fig country h Hdf Hlt) as [Hn Hold].
  destruct (chart_country_run df d fig country h Hdf Hlt)
    as (h1 & Hrun & Hdf1 & Hlt1 & _).
  unfold bind. rewrite Hrun in Hn, Hold |- *. simpl in Hn, Hold.
  destruct (country_step d fig country) as [fig1|e]; [|done].
  destruct (IH fig1 h1 Hdf1 Hlt1) as [Hn' Hold']. split; [lia|].
  intros r Hr. rewrite Hold' by lia. by apply Hold.
Qed.

(** X15. A call of the callback changes no frame that existed before it:
    every object of the heap is afterwards what it was, and the frames the
    call works on are new objects. *)
Theorem update_chart_keeps_older_objects df d selected_countries h :
  objs h !! df = Some d →
  (df < next_id h)%nat →
  (next_id h ≤ next_id (update_chart df selected_countries h).1)%nat
  ∧ ∀ r, (r < next_id h)%nat →
         objs (update_chart df selected_countries h).1 !! r = objs h !! r.
Proof.
  intros Hdf Hlt. unfold update_chart.
  destruct (negb (truthy_selection selected_countries)); [done|].
  unfold bind, lift. rewrite (deref_run _ _ _ Hdf).
  destruct (strftime (series_min _)) as [gmin|e]; [|done].
  rewrite (deref_run _ _ _ Hdf).
  destruct (strftime (series_max _)) as [gmax|e]; [|done].
  pose proof (for_countries_keeps df d (default [] selected_countries) new_figure h
                Hdf Hlt) as Hkeep.
  destruct (for_countries df new_figure (default [] selected_countries) h) as [h1 [fig|e]];
    exact Hkeep.
Qed.

(** * The script at import *)

Lemma load_countries_run rows :
  (let* df := Loader.load rows in
   let* cs := countries df in
   ret (df, cs)) empty_heap
  = (alloc (loaded rows) (alloc (Loader.read_csv rows) empty_heap),
     Ok (1%nat, country_names (loaded rows))).
Proof.
  unfold bind at 1. rewrite load_run.
  unfold bind. rewrite (countries_run _ (loaded rows)); [done|].
  apply lookup_alloc_new.
Qed.

(** X16. A failed download is fatal: when today's label is not in the
    ledger and the request fails or is answered with a status from 400 to
    599, the script raises and loads nothing, also when a cache file for
    today is there; the file system is left as it was. *)
Theorem startup_fetch_failure_is_fatal parse_csv today reply w :
  logged_today today w = false →
  reply = NoReply
  ∨ (∃ status_code content,
       reply = Response status_code content ∧ 400 ≤ status_code < 600) →
  ∃ w' e, startup parse_csv today reply w = (w', Raise e)
          ∧ (e = ConnectionError ∨ e = HTTPError)
          ∧ fs w' = fs w.
Proof.
  intros Hl Hreply. unfold startup, download_if_needed. rewrite Hl.
  destruct Hreply as [->|(status_code & content & -> & Hs)].
  - eexists _, _. split; [done|]. split; [by left | done].
  - assert (Herr : is_error_status status_code = true).
    { unfold is_error_status. apply andb_true_iff. split; [apply Z.leb_le | apply Z.ltb_lt]; lia. }
    rewrite Herr. eexists _, _. split; [done|]. split; [by right | done].
Qed.

(** X17. After a download the frame is built from the body just received:
    when today's label is not in the ledger and the answer has a status
    outside 400 to 599 and a body that parses, the script writes the body
    to today's cache file, whatever was there, and [df] and [countries]
    come from its rows. *)
Theorem startup_loads_downloaded_body parse_csv today status_code content rows w :
  logged_today today w = false →
  ¬ (400 ≤ status_code < 600) →
  parse_csv content = Ok rows →
  ∃ w' h df cs,
    startup parse_csv today (Response status_code content) w = (w', Ok (h, df, cs))
    ∧ fs w' !! filepath today = Some content
    ∧ requests w' = S (requests w)
    ∧ Loader.load rows empty_heap = (h, Ok df)
    ∧ countries df h = (h, Ok cs).
Proof.
  intros Hl Hs Hparse. unfold startup, download_if_needed. rewrite Hl.
  assert (Herr : is_error_status status_code = false).
  { unfold is_error_status. apply andb_false_iff.
    destruct (Z.leb_spec 400 status_code); [right; apply Z.ltb_ge; lia | by left]. }
  rewrite Herr. cbv zeta.
  assert (Hfile : ∀ w0, fs (append_file LOG_FILE (today +:+ " - Downloaded" +:+ nl)
                          (write_file (filepath today) content w0))
                        !! filepath today = Some content).
  { intros w0. unfold append_file, write_file. simpl.
    rewrite lookup_insert_ne by (intros Heq; by apply (filepath_not_ledger today)).
    by rewrite lookup_insert_eq. }
  unfold open_for_read. rewrite Hfile, Hparse, load_countries_run.
  eexists _, _, _, _. split; [done|]. split; [apply Hfile|]. split; [done|].
  split; [apply load_run|]. apply countries_run, lookup_alloc_new.
Qed.

(** X18. With today's label in the ledger the script asks nothing of the
    network and changes nothing outside: what it loads depends on the cache
    file alone, not on what the network would answer, and without the cache
    file it raises [FileNotFoundError]. *)
Theorem startup_fast_path_reads_cache parse_csv today reply w :
  logged_today today w = true →
  (startup parse_csv today reply w).1 = w
  ∧ (∀ reply', startup parse_csv today reply' w = startup parse_csv today reply w)
  ∧ (fs w !! filepath today = None →
     (startup parse_csv today reply w).2 = Raise FileNotFoundError)
  ∧ (∀ text rows, fs w !! filepath today = Some text → parse_csv text = Ok rows →
     ∃ h df cs, (startup parse_csv today reply w).2 = Ok (h, df, cs)
                ∧ Loader.load rows empty_heap = (h, Ok df)
                ∧ countries df h = (h, Ok cs)).
Proof.
  intros Hl.
  assert (Hfast : ∀ r, download_if_needed today r w = (w, Ok tt))
    by (intros r; by apply download_logged).
  unfold startup. rewrite Hfast. unfold open_for_read.
  split; [|split; [|split]].
  - destruct (fs w !! filepath today) as [text|]; [|done].
    destruct (parse_csv text) as [rows|e]; [|done].
    by rewrite load_countries_run.
  - intros reply'. by rewrite Hfast.
  - by intros ->.
  - intros text rows -> ->. rewrite load_countries_run.
    eexists _, _, _. split; [done|]. split; [apply load_run|].
    apply countries_run, lookup_alloc_new.
Qed.

(** ** Instances of the further properties *)

Lemma download_raises_only_on_failed_request_witness :
  download_if_needed today_label (Response 503 EmptyString) stale_world
  = ({| fs := fs stale_world; requests := 1;
        stdout := ["[INFO] Downloading COVID dataset..."] |}, Raise HTTPError)
  ∧ fs {| fs := fs stale_world; requests := 1;
          stdout := ["[INFO] Downloading COVID dataset..."] |} = fs stale_world
  ∧ requests {| fs := fs stale_world; requests := 1;
                stdout := ["[INFO] Downloading COVID dataset..."] |}
    = S (requests stale_world)
  ∧ logged_today today_label stale_world = false
  ∧ ((HTTPError = ConnectionError ∧ Response 503 EmptyString = NoReply)
     ∨ (HTTPError = HTTPError ∧ ∃ status_code content,
          Response 503 EmptyString = Response status_code content
          ∧ 400 ≤ status_code < 600)).
Proof.
  assert (H1 : download_if_needed today_label (Response 503 EmptyString) stale_world
               = ({| fs := fs stale_world; requests := 1;
                     stdout := ["[INFO] Downloading COVID dataset..."] |},
                  Raise HTTPError))
    by (vm_compute; reflexivity).
  exact (conj H1 (download_raises_only_on_failed_request _ _ _ _ _ H1)).
Defined.

Lemma download_keeps_other_days_witness :
  "2024-01-04" ≠ today_label
  ∧ fs (download_if_needed today_label (Response 200 csv_body) yesterday_world).1
      !! filepath "2024-01-04"
    = fs yesterday_world !! filepath "2024-01-04".
Proof.
  assert (H1 : "2024-01-04" ≠ today_label) by (vm_compute; discriminate).
  exact (conj H1 (download_keeps_other_days today_label "2024-01-04"
                    (Response 200 csv_body) yesterday_world H1)).
Defined.

Lemma countries_ascending_distinct_witness :
  objs two_countries_heap !! 1%nat = Some (loaded two_countries_rows)
  ∧ ∃ cs, countries 1 two_countries_heap = (two_countries_heap, Ok cs)
          ∧ Sorted (fun a b => String.ltb a b = true) cs
          ∧ NoDup cs.
Proof.
  exact (conj two_countries_df
    (countries_ascending_distinct 1 (loaded two_countries_rows) two_countries_heap
       two_countries_df)).
Defined.

Lemma no_value_df : objs no_value_heap !! 1%nat = Some (loaded no_value_rows).
Proof. vm_compute. reflexivity. Defined.

Lemma no_value_lines : lines (loaded no_value_rows) = [].
Proof. vm_compute. reflexivity. Defined.

Lemma update_chart_raises_without_rows_witness :
  objs no_value_heap !! 1%nat = Some (loaded no_value_rows)
  ∧ lines (loaded no_value_rows) = []
  ∧ update_chart 1 (Some ("B" :: DEFAULT_COUNTRIES)) no_value_heap
    = (no_value_heap, Raise ValueError).
Proof.
  exact (conj no_value_df (conj no_value_lines
    (update_chart_raises_without_rows 1 (loaded no_value_rows) "B" DEFAULT_COUNTRIES
       no_value_heap no_value_df no_value_lines))).
Defined.

Lemma annotations_follow_markers_witness :
  objs two_countries_heap !! 1%nat = Some (loaded two_countries_rows)
  ∧ (1 < next_id two_countries_heap)%nat
  ∧ lines (loaded two_countries_rows) ≠ []
  ∧ ∃ fig,
      (update_chart 1 (Some ["B"; "A"]) two_countries_heap).2 = Ok fig
      ∧ map (fun a => ([ann_x a], [ann_y a])) (annotations fig)
        = map (fun t => (x t, y t)) (List.filter is_marker_trace (data fig))
      ∧ Forall (fun a => ∃ c, c ∈ ["B"; "A"]
                              ∧ text a = "Reporting stopped for " +:+ c)
          (annotations fig)
      ∧ (length (annotations fig) ≤ length ["B"; "A"])%nat.
Proof.
  exact (conj two_countries_df (conj two_countries_next (conj two_countries_rows_present
    (annotations_follow_markers 1 (loaded two_countries_rows) ["B"; "A"]
       two_countries_heap two_countries_df two_countries_next
       two_countries_rows_present)))).
Defined.

Lemma line_trace_holds_country_rows_witness :
  objs two_countries_heap !! 1%nat = Some (loaded two_countries_rows)
  ∧ (1 < next_id two_countries_heap)%nat
  ∧ lines (loaded two_countries_rows) ≠ []
  ∧ ∃ fig,
      (update_chart 1 (Some ["B"; "A"]) two_countries_heap).2 = Ok fig
      ∧ Forall2
          (fun t c =>
             name t = Some c
             ∧ length (x t) = length (y t)
             ∧ Sorted date_le (x t)
             ∧ points t ≡ₚ
                 map (fun l => (date l, total_cases l))
                   (List.filter (fun l => String.eqb (location l) c)
                      (lines (loaded two_countries_rows))))
          (List.filter is_line_trace (data fig)) ["B"; "A"].
Proof.
  exact (conj two_countries_df (conj two_countries_next (conj two_countries_rows_present
    (line_trace_holds_country_rows 1 (loaded two_countries_rows) ["B"; "A"]
       two_countries_heap two_countries_df two_countries_next
       two_countries_rows_present)))).
Defined.

Lemma update_chart_concatenates_witness :
  objs two_countries_heap !! 1%nat = Some (loaded two_countries_rows)
  ∧ (1 < next_id two_countries_heap)%nat
  ∧ lines (loaded two_countries_rows) ≠ []
  ∧ ∃ fig fig1 fig2,
      (update_chart 1 (Some (["B"] ++ ["A"; "B"])) two_countries_heap).2 = Ok fig
      ∧ (update_chart 1 (Some ["B"]) two_countries_heap).2 = Ok fig1
      ∧ (update_chart 1 (Some ["A"; "B"]) two_countries_heap).2 = Ok fig2
      ∧ data fig = data fig1 ++ data fig2
      ∧ annotations fig = annotations fig1 ++ annotations fig2.
Proof.
  exact (conj two_countries_df (conj two_countries_next (conj two_countries_rows_present
    (update_chart_concatenates 1 (loaded two_countries_rows) ["B"] ["A"; "B"]
       two_countries_heap two_countries_df two_countries_next
       two_countries_rows_present)))).
Defined.

Lemma update_chart_independent_of_history_witness :
  objs two_countries_heap !! 1%nat = Some (loaded two_countries_rows)
  ∧ (1 < next_id two_countries_heap)%nat
  ∧ (update_chart 1 (Some ["B"])
       (serve 1 [Some ["A"]; None; Some ["A"; "B"]] two_countries_heap)).2
    = (update_chart 1 (Some ["B"]) two_countries_heap).2.
Proof.
  exact (conj two_countries_df (conj two_countries_next
    (update_chart_independent_of_history 1 (loaded two_countries_rows)
       [Some ["A"]; None; Some ["A"; "B"]] (Some ["B"]) two_countries_heap
       two_countries_df two_countries_next))).
Defined.

Lemma plateau_dashboard : dashboard plateau_rows (Some ["C"]) = Ok plateau_figure.
Proof. vm_compute. reflexivity. Defined.

Lemma plateau_data : data plateau_figure = [plateau_line; plateau_marker].
Proof. vm_compute. reflexivity. Defined.


Lemma option_B_offered :
  mkOption "B" "B" ∈ options (country_selector (country_names (loaded two_countries_rows))).
Proof. vm_compute. right. left. Defined.

Lemma dropdown_option_has_points_witness :
  objs two_countries_heap !! 1%nat = Some (loaded two_countries_rows)
  ∧ (1 < next_id two_countries_heap)%nat
  ∧ (mkOption "B" "B"
       ∈ options (country_selector (country_names (loaded two_countries_rows))))
  ∧ option_label (mkOption "B" "B") = option_value (mkOption "B" "B")
  ∧ ∃ fig line,
      (update_chart 1 (Some [option_value (mkOption "B" "B")]) two_countries_heap).2
      = Ok fig
      ∧ head (data fig) = Some line
      ∧ name line = Some (option_label (mkOption "B" "B"))
      ∧ mode line = mode_lines
      ∧ x line ≠ [].
Proof.
  exact (conj two_countries_df (conj two_countries_next (conj option_B_offered
    (dropdown_option_has_points 1 (loaded two_countries_rows) (mkOption "B" "B")
       two_countries_heap two_countries_df two_countries_next option_B_offered)))).
Defined.

Lemma update_chart_keeps_older_objects_witness :
  objs two_countries_heap !! 1%nat = Some (loaded two_countries_rows)
  ∧ (1 < next_id two_countries_heap)%nat
  ∧ (next_id two_countries_heap
     ≤ next_id (update_chart 1 (Some ["B"; "A"]) two_countries_heap).1)%nat
  ∧ ∀ r, (r < next_id two_countries_heap)%nat →
         objs (update_chart 1 (Some ["B"; "A"]) two_countries_heap).1 !! r
         = objs two_countries_heap !! r.
Proof.
  exact (conj two_countries_df (conj two_countries_next
    (update_chart_keeps_older_objects 1 (loaded two_countries_rows) (Some ["B"; "A"])
       two_countries_heap two_countries_df two_countries_next))).
Defined.

Lemma stale_world_not_logged : logged_today today_label stale_world = false.
Proof. vm_compute. reflexivity. Defined.

Lemma startup_fetch_failure_is_fatal_witness :
  logged_today today_label stale_world = false
  ∧ (Response 503 EmptyString = NoReply
     ∨ (∃ status_code content,
          Response 503 EmptyString = Response status_code content
          ∧ 400 ≤ status_code < 600))
  ∧ ∃ w' e, startup sample_parse today_label (Response 503 EmptyString) stale_world
            = (w', Raise e)
            ∧ (e = ConnectionError ∨ e = HTTPError)
            ∧ fs w' = fs stale_world.
Proof.
  assert (H2 : Response 503 EmptyString = NoReply
               ∨ (∃ status_code content,
                    Response 503 EmptyString = Response status_code content
                    ∧ 400 ≤ status_code < 600)).
  { right. exists 503, EmptyString. split; [reflexivity | lia]. }
  exact (conj stale_world_not_logged (conj H2
    (startup_fetch_failure_is_fatal sample_parse today_label
       (Response 503 EmptyString) stale_world stale_world_not_logged H2))).
Defined.

Lemma yesterday_world_not_logged : logged_today today_label yesterday_world = false.
Proof. vm_compute. reflexivity. Defined.

Lemma startup_loads_downloaded_body_witness :
  logged_today today_label yesterday_world = false
  ∧ ¬ (400 ≤ 200 < 600)
  ∧ sample_parse two_countries_csv = Ok two_countries_rows
  ∧ ∃ w' h df cs,
      startup sample_parse today_label (Response 200 two_countries_csv) yesterday_world
      = (w', Ok (h, df, cs))
      ∧ fs w' !! filepath today_label = Some two_countries_csv
      ∧ requests w' = S (requests yesterday_world)
      ∧ Loader.load two_countries_rows empty_heap = (h, Ok df)
      ∧ countries df h = (h, Ok cs).
Proof.
  assert (H2 : ¬ (400 ≤ 200 < 600)) by lia.
  assert (H3 : sample_parse two_countries_csv = Ok two_countries_rows)
    by (vm_compute; reflexivity).
  exact (conj yesterday_world_not_logged (conj H2 (conj H3
    (startup_loads_downloaded_body sample_parse today_label 200 two_countries_csv
       two_countries_rows yesterday_world yesterday_world_not_logged H2 H3)))).
Defined.

Lemma logged_world_logged : logged_today today_label logged_world = true.
Proof. vm_compute. reflexivity. Defined.

Lemma startup_fast_path_reads_cache_witness :
  logged_today today_label logged_world = true
  ∧ (startup sample_parse today_label NoReply logged_world).1 = logged_world
  ∧ (∀ reply', startup sample_parse today_label reply' logged_world
               = startup sample_parse today_label NoReply logged_world)
  ∧ (fs logged_world !! filepath today_label = None →
     (startup sample_parse today_label NoReply logged_world).2
     = Raise FileNotFoundError)
  ∧ (∀ text rows, fs logged_world !! filepath today_label = Some text →
     sample_parse text = Ok rows →
     ∃ h df cs, (startup sample_parse today_label NoReply logged_world).2
                = Ok (h, df, cs)
                ∧ Loader.load rows empty_heap = (h, Ok df)
                ∧ countries df h = (h, Ok cs)).
Proof.
  exact (conj logged_world_logged
    (startup_fast_path_reads_cache sample_parse today_label NoReply logged_world
       logged_world_logged)).
Defined.

(** ** Loader and callback together *)

Lemma country_frame_line_from d country l :
  l ∈ lines (country_frame d country) →
  ∃ l0, l0 ∈ lines d ∧ total_cases l = total_cases l0 ∧ date l = date l0.
Proof.
  intros Hin.
  assert (Hp : (date l, total_cases l)
               ∈ map (fun l => (date l, total_cases l)) (lines (country_frame d country))).
  { apply list_elem_of_fmap. by exists l. }
  unfold country_frame in Hp. cbn [lines] in Hp. rewrite points_assign_delta in Hp.
  apply list_elem_of_fmap in Hp as (l0 & Heq & Hin0).
  rewrite sort_by_date_perm in Hin0. apply elem_of_filter_bool in Hin0 as [Hin0 _].
  exists l0. injection Heq as Hd Hv. done.
Qed.

(** X19. No plotted value is missing: in every figure drawn from a loaded
    file, each [y] entry of each trace, line or marker, is a number. *)
Theorem plotted_values_never_missing rows (cs : list string) fig :
  dashboard rows (Some cs) = Ok fig →
  Forall (fun t => Forall (fun v => v ≠ None) (y t)) (data fig).
Proof.
  rewrite dashboard_render. intros Hfig.
  destruct cs as [|country rest].
  { injection Hfig as <-. constructor. }
  assert (Hne : lines (loaded rows) ≠ []).
  { intros Hnil. rewrite (render_empty_frame _ _ _ Hnil) in Hfig. discriminate. }
  destruct (render_contributions (loaded rows) (country :: rest) (or_introl Hne))
    as (fig' & Hr & Hdata & _).
  rewrite Hfig in Hr. injection Hr as <-. rewrite Hdata.
  assert (Hvals : ∀ c l, l ∈ lines (country_frame (loaded rows) c) → total_cases l ≠ None).
  { intros c l Hin. apply country_frame_line_from in Hin as (l0 & Hin0 & -> & _).
    pose proof (filter_notna_all (lines (Loader.read_csv rows))) as Hall.
    rewrite List.Forall_forall in Hall. apply Hall. by apply list_elem_of_In. }
  apply Forall_forall. intros t Ht.
  apply list_elem_of_In, List.in_flat_map in Ht as (c & _ & Ht).
  apply list_elem_of_In in Ht. unfold country_traces in Ht.
  apply elem_of_cons in Ht as [->|Ht].
  - cbn [line_trace y]. apply Forall_forall. intros v Hv.
    apply list_elem_of_fmap in Hv as (l & -> & Hin). by eapply Hvals.
  - destruct (country_marks_shape (loaded rows) c) as [Hm|(l & Hin & Hm)];
      rewrite Hm in Ht; simpl in Ht.
    + by apply elem_of_nil in Ht.
    + apply list_elem_of_singleton in Ht as ->. cbn [marker_trace y].
      constructor; [by eapply Hvals | constructor].
Qed.

Lemma plotted_values_never_missing_witness :
  dashboard plateau_rows (Some ["C"]) = Ok plateau_figure
  ∧ Forall (fun t => Forall (fun v => v ≠ None) (y t)) (data plateau_figure).
Proof.
  exact (conj plateau_dashboard
    (plotted_values_never_missing plateau_rows ["C"] plateau_figure plateau_dashboard)).
Defined.
